(** * web_scraper_app.py: a shallow embedding of the scraping script

    The script validates a URL, fetches the page, parses it with
    BeautifulSoup and renders one of five views (paragraphs, headings,
    links, tables, images) through Streamlit.

    Python strings are modelled by [string]; a character is a code point
    below 256.  Dictionaries with string keys ([Tag.attrs], the link
    records handed to [pd.DataFrame]) are [gmap string string].  The
    libraries the script calls ([urlparse], [requests], [BeautifulSoup],
    [pandas]) are parameters of the development; the script itself is a
    program in a small trace-and-exception monad. *)

From Stdlib Require Import Ascii String.
From stdpp Require Import base option list strings gmap pretty.

Local Open Scope string_scope.

(** ** Python [str] operations used by the script *)

Module PyStr.

(** [c.isspace()] for a code point below 256. *)
Definition isspace (c : ascii) : bool :=
  let n := nat_of_ascii c in
  (((9 <=? n) && (n <=? 13)) || ((28 <=? n) && (n <=? 32))
   || (n =? 133) || (n =? 160))%nat.

(** [s.lstrip()] *)
Fixpoint lstrip (s : string) : string :=
  match s with
  | EmptyString => EmptyString
  | String c s' => if isspace c then lstrip s' else s
  end.

(** [s.rstrip()] *)
Fixpoint rstrip (s : string) : string :=
  match s with
  | EmptyString => EmptyString
  | String c s' =>
      match rstrip s' with
      | EmptyString => if isspace c then EmptyString else String c EmptyString
      | r => String c r
      end
  end.

(** [s.strip()] *)
Definition strip (s : string) : string := rstrip (lstrip s).

(** [s.startswith(p)] *)
Fixpoint startswith (s p : string) : bool :=
  match p, s with
  | EmptyString, _ => true
  | String a p', String b s' => if ascii_dec a b then startswith s' p' else false
  | String _ _, EmptyString => false
  end.

(** [s.endswith(p)] *)
Definition endswith (s p : string) : bool :=
  startswith (String.rev s) (String.rev p).

(** [s[:n]] *)
Fixpoint slice_to (n : nat) (s : string) : string :=
  match n, s with
  | S n', String c s' => String c (slice_to n' s')
  | _, _ => EmptyString
  end.

(** [s[n:]] *)
Fixpoint slice_from (n : nat) (s : string) : string :=
  match n, s with
  | S n', String _ s' => slice_from n' s'
  | _, _ => s
  end.

(** [c * n] for a one-character string [c] *)
Fixpoint repeat_char (c : ascii) (n : nat) : string :=
  match n with
  | O => EmptyString
  | S n' => String c (repeat_char c n')
  end.

Definition lower_char (c : ascii) : ascii :=
  let n := nat_of_ascii c in
  if (((65 <=? n) && (n <=? 90))
      || ((192 <=? n) && (n <=? 222) && negb (n =? 215)))%nat
  then ascii_of_nat (n + 32) else c.

(** [s.lower()] *)
Fixpoint lower (s : string) : string :=
  match s with
  | EmptyString => EmptyString
  | String c s' => String (lower_char c) (lower s')
  end.

(** [s.find(c)] for a one-character needle; [None] stands for [-1]. *)
Fixpoint find_char (c : ascii) (s : string) : option nat :=
  match s with
  | EmptyString => None
  | String a s' =>
      if ascii_dec a c then Some 0 else S <$> find_char c s'
  end.

(** [c in s] *)
Definition contains_char (c : ascii) (s : string) : bool :=
  bool_decide (is_Some (find_char c s)).

(** Truthiness of a string: [bool(s)]. *)
Definition truthy (s : string) : bool :=
  match s with EmptyString => false | _ => true end.

(** The one-character string holding a double quote. *)
Definition dquote : string := String (ascii_of_nat 34) EmptyString.

(** [str(n)] for a natural number *)
Definition str_of_nat (n : nat) : string := pretty n.

End PyStr.

Import PyStr.

(** ** The parsed document (bs4) *)

Module Bs4.

(** A [Tag] carries its name, its attribute dictionary and its children;
    a child is a tag, a [NavigableString], or a string of a class that
    [get_text] leaves out ([Comment] stands for all of those). *)
Inductive Tag : Type :=
| mkTag (name : string) (attrs : gmap string string)
        (contents : list PageElement)
with PageElement : Type :=
| TagNode (t : Tag)
| NavigableString (s : string)
| Comment (s : string).

(** [tag.name], [tag.attrs], [tag.contents] *)
Definition name (t : Tag) : string := let 'mkTag n _ _ := t in n.
Definition attrs (t : Tag) : gmap string string := let 'mkTag _ a _ := t in a.
Definition contents (t : Tag) : list PageElement := let 'mkTag _ _ c := t in c.

(** [tag.descendants], restricted to tags: document (pre-)order. *)
Fixpoint descendant_tags (t : Tag) : list Tag :=
  match t with
  | mkTag _ _ cs =>
      (fix go (l : list PageElement) : list Tag :=
         match l with
         | [] => []
         | TagNode c :: l' => c :: descendant_tags c ++ go l'
         | _ :: l' => go l'
         end) cs
  end.

(** [tag.get_text()] *)
Fixpoint get_text (t : Tag) : string :=
  match t with
  | mkTag _ _ cs =>
      (fix go (l : list PageElement) : string :=
         match l with
         | [] => ""
         | TagNode c :: l' => get_text c +:+ go l'
         | NavigableString s :: l' => s +:+ go l'
         | Comment _ :: l' => go l'
         end) cs
  end.

(** [soup.find_all(n)] *)
Definition find_all (n : string) (soup : Tag) : list Tag :=
  filter (λ t, name t = n) (descendant_tags soup).

(** [soup.find_all([n1, n2, ...])] *)
Definition find_all_in (ns : list string) (soup : Tag) : list Tag :=
  filter (λ t, name t ∈ ns) (descendant_tags soup).

(** [soup.find_all(n, **{a: True})]: tags named [n] that carry the
    attribute [a], whatever its value. *)
Definition find_all_with (n a : string) (soup : Tag) : list Tag :=
  filter (λ t, name t = n ∧ is_Some (attrs t !! a)) (descendant_tags soup).

(** [tag.get(a, default)] *)
Definition get (t : Tag) (a default : string) : string :=
  match attrs t !! a with Some v => v | None => default end.

End Bs4.

(** ** Results of the library calls *)

Module Urllib.

(** The two fields of [urlparse(...)] the script reads. *)
Record ParseResult : Type :=
  mkParseResult { scheme : string; netloc : string }.

End Urllib.

Module Requests.

Record Response : Type :=
  mkResponse { status_code : nat; reason : string;
               response_url : string; text : string }.

(** [requests.get] returns a response, raises a
    [requests.RequestException] with a message, or lets an exception of
    another class escape (one of [urllib3], say), named here. *)
Inductive GetResult : Type :=
| Responded (response : Response)
| Failed (msg : string)
| Escaped (name : string).

(** [response.raise_for_status()]: the message of the [HTTPError] it
    raises, if it raises. *)
Definition raise_for_status (r : Response) : option string :=
  let code := status_code r in
  if ((400 <=? code) && (code <? 500))%nat then
    Some (str_of_nat code +:+ " Client Error: " +:+ reason r
          +:+ " for url: " +:+ response_url r)
  else if ((500 <=? code) && (code <? 600))%nat then
    Some (str_of_nat code +:+ " Server Error: " +:+ reason r
          +:+ " for url: " +:+ response_url r)
  else None.

End Requests.

Import Bs4 Urllib Requests.

(** The libraries the script calls.  [urlparse] answers [None] where
    Python raises [ValueError]; [pd_read_html] answers [None] where
    [pd.read_html] raises. *)
Class Libraries (DataFrame : Type) : Type := {
  urlparse : string → option ParseResult;
  requests_get : string → gmap string string → nat → GetResult;
  BeautifulSoup : string → Tag;
  tag_str : Tag → string;
  pd_read_html : string → option (list DataFrame);
  pd_DataFrame : list (gmap string string) → DataFrame;
}.

(** ** Exceptions and outcomes *)

Inductive Exception : Type :=
| ValueError
| IndexError
| KeyError (key : string)
| RequestException (msg : string)
| OtherError (name : string)
| PandasError
| StopException.

Inductive Outcome (A : Type) : Type :=
| Return (a : A)
| Raise (e : Exception).
Arguments Return {A} a.
Arguments Raise {A} e.

#[export] Instance Outcome_ret : MRet Outcome := λ A a, Return a.
#[export] Instance Outcome_bind : MBind Outcome := λ A B f o,
  match o with
  | Return a => f a
  | Raise e => Raise e
  end.

(** [o] when present, otherwise raise [e]. *)
Definition or_raise {A} (e : Exception) (o : option A) : Outcome A :=
  match o with Some a => Return a | None => Raise e end.

(** [s[i]] on a string *)
Definition str_getitem (s : string) (i : nat) : Outcome string :=
  match String.get i s with
  | Some c => Return (String c "")
  | None => Raise IndexError
  end.

(** [l[i]] on a list *)
Definition list_getitem {A} (l : list A) (i : nat) : Outcome A :=
  or_raise IndexError (l !! i).

(** [tag[a]] *)
Definition tag_getitem (t : Tag) (a : string) : Outcome string :=
  or_raise (KeyError a) (attrs t !! a).

(** [int(s)] for a string of one character. *)
Definition int_of_digit (s : string) : Outcome nat :=
  match s with
  | String c "" =>
      let n := nat_of_ascii c in
      if ((48 <=? n) && (n <=? 57))%nat then Return (n - 48) else Raise ValueError
  | _ => Raise ValueError
  end.

(** [enumerate(l)] *)
Definition enumerate {A} (l : list A) : list (nat * A) := imap pair l.

(** ** A reference [urlsplit]

    The scheme and netloc computed by CPython's [urllib.parse.urlsplit]
    (which [urlparse] calls), on strings of code points below 256.  The
    validation of a bracketed host, which CPython delegates to the
    [ipaddress] module, is the argument [check_bracketed_host]. *)

Module UrllibRef.

Definition c0_control_or_space (c : ascii) : bool :=
  (nat_of_ascii c <=? 32)%nat.

(** [url.lstrip(_WHATWG_C0_CONTROL_OR_SPACE)] *)
Fixpoint lstrip_c0 (s : string) : string :=
  match s with
  | EmptyString => EmptyString
  | String c s' => if c0_control_or_space c then lstrip_c0 s' else s
  end.

(** Removal of tab, carriage return and line feed. *)
Fixpoint remove_unsafe (s : string) : string :=
  match s with
  | EmptyString => EmptyString
  | String c s' =>
      let n := nat_of_ascii c in
      if ((n =? 9) || (n =? 10) || (n =? 13))%nat then remove_unsafe s'
      else String c (remove_unsafe s')
  end.

Definition ascii_alpha (c : ascii) : bool :=
  let n := nat_of_ascii c in
  (((65 <=? n) && (n <=? 90)) || ((97 <=? n) && (n <=? 122)))%nat.

(** Membership in [scheme_chars]: letters, digits, [+], [-], [.] *)
Definition scheme_char (c : ascii) : bool :=
  let n := nat_of_ascii c in
  (ascii_alpha c || ((48 <=? n) && (n <=? 57))
   || (n =? 43) || (n =? 45) || (n =? 46))%nat.

Fixpoint all_chars (p : ascii → bool) (s : string) : bool :=
  match s with
  | EmptyString => true
  | String c s' => p c && all_chars p s'
  end.

(** The text before the first of [/], [?], [#]. *)
Fixpoint until_delim (s : string) : string :=
  match s with
  | EmptyString => EmptyString
  | String c s' =>
      let n := nat_of_ascii c in
      if ((n =? 47) || (n =? 63) || (n =? 35))%nat then EmptyString
      else String c (until_delim s')
  end.

(** [s.partition(c)[0]] and [s.partition(c)[2]] *)
Definition before_char (c : ascii) (s : string) : string :=
  match find_char c s with
  | Some i => slice_to i s
  | None => s
  end.

Definition after_char (c : ascii) (s : string) : string :=
  match find_char c s with
  | Some i => slice_from (S i) s
  | None => EmptyString
  end.

Definition split_scheme (url : string) : string * string :=
  match find_char ":" url, url with
  | Some (S i), String c _ =>
      if ascii_alpha c && all_chars scheme_char (slice_to (S i) url)
      then (lower (slice_to (S i) url), slice_from (S (S i)) url)
      else (EmptyString, url)
  | _, _ => (EmptyString, url)
  end.

Definition urlsplit (check_bracketed_host : string → bool) (url : string)
    : option ParseResult :=
  let url := remove_unsafe (lstrip_c0 url) in
  let '(scheme, url) := split_scheme url in
  if startswith url "//" then
    let netloc := until_delim (slice_from 2 url) in
    let lb := contains_char "[" netloc in
    let rb := contains_char "]" netloc in
    if (lb && negb rb) || (rb && negb lb) then None
    else if lb && rb then
      if check_bracketed_host (before_char "]" (after_char "[" netloc))
      then Some (mkParseResult scheme netloc)
      else None
    else Some (mkParseResult scheme netloc)
  else Some (mkParseResult scheme EmptyString).

End UrllibRef.

(** ** Stand-ins for the remaining libraries, and sample documents, for
    concrete runs *)

Module Demo.

(** A page element with children only. *)
Definition el (n : string) (cs : list PageElement) : PageElement :=
  TagNode (mkTag n ∅ cs).

(** An [img] element with the given [src]. *)
Definition img (src : string) : PageElement :=
  TagNode (mkTag "img" {[ "src" := src ]} []).

(** An anchor with the given [href] and text. *)
Definition anchor (href text : string) : PageElement :=
  TagNode (mkTag "a" {[ "href" := href ]} [NavigableString text]).

Definition document (cs : list PageElement) : Tag := mkTag "[document]" ∅ cs.

Definition page_html : string := "<p> Hello </p><h2>News</h2>".

Definition page_soup : Tag :=
  document [el "p" [NavigableString " Hello "]; el "h2" [NavigableString "News"]].

Definition ok_response (url body : string) : Response :=
  mkResponse 200 "OK" url body.

(** One reachable page, one page that answers 404, and no route to any
    other host. *)
Definition demo_get (url : string) (_ : gmap string string) (_ : nat)
    : GetResult :=
  if String.eqb url "https://ex.com/page" then Responded (ok_response url page_html)
  else if String.eqb url "https://ex.com/missing"
       then Responded (mkResponse 404 "Not Found" url "")
  else Failed "Connection refused".

Definition demo_parse (html : string) : Tag :=
  if String.eqb html page_html then page_soup
  else document [NavigableString html].

(** The markup of a tag, without its attributes and inner tags. *)
Definition demo_tag_str (t : Tag) : string :=
  "<" +:+ name t +:+ ">" +:+ get_text t +:+ "</" +:+ name t +:+ ">".

(** A frame is a list of rows of cells; the empty table has none. *)
Definition demo_read_html (markup : string) : option (list (list (list string))) :=
  if String.eqb markup "<table></table>" then None else Some [[[markup]]].

Definition demo_frame (records : list (gmap string string)) : list (list string) :=
  (λ r : gmap string string,
     [default "" (r !! "URL"); default "" (r !! "Text"); default "" (r !! "Type")])
    <$> records.

#[export] Instance libraries : Libraries (list (list string)) := {|
  urlparse := UrllibRef.urlsplit (λ _, true);
  requests_get := demo_get;
  BeautifulSoup := demo_parse;
  tag_str := demo_tag_str;
  pd_read_html := demo_read_html;
  pd_DataFrame := demo_frame;
|}.

(** Ten images, the first of them without a source. *)
Definition ten_images : Tag :=
  document
    (img "" :: ((λ i, img ("http://ex.com/" +:+ str_of_nat i +:+ ".png")) <$> seq 1 9)).

Definition one_relative_image : Tag := document [img "b.png"].

Definition five_tables : Tag :=
  document [el "table" [NavigableString "a"]; el "table" [];
            el "table" [NavigableString "c"]; el "table" [NavigableString "d"];
            el "table" [NavigableString "e"]].

Definition some_links : Tag :=
  document [anchor "https://ex.com/a" "same";
            anchor "/about" "relative";
            anchor "https://www.ex.com/b" " www ";
            anchor "https://EX.com/c" "upper";
            anchor "httpfoo/bar" "odd"].

Definition bad_link : Tag := document [anchor "http://[" "broken"].


(** A server that answers every request with 304 and the sample page. *)
Definition not_modified_get (url : string) (_ : gmap string string) (_ : nat)
    : GetResult :=
  Responded (mkResponse 304 "Not Modified" url page_html).

Definition cached_libraries : Libraries (list (list string)) := {|
  urlparse := UrllibRef.urlsplit (λ _, true);
  requests_get := not_modified_get;
  BeautifulSoup := demo_parse;
  tag_str := demo_tag_str;
  pd_read_html := demo_read_html;
  pd_DataFrame := demo_frame;
|}.

(** Two anchors, none of them with an absolute address. *)
Definition relative_links : Tag :=
  document [anchor "/about" "About"; anchor "mailto:me@ex.com" "Mail"].

End Demo.

(** ** The script *)

(** The five options of the sidebar radio button. *)
Inductive Choice : Type := Paragraphs | Headings | Links | Tables | Images.

Definition choice_label (c : Choice) : string :=
  match c with
  | Paragraphs => "Paragraphs"
  | Headings => "Headings"
  | Links => "Links"
  | Tables => "Tables"
  | Images => "Images"
  end.

(** Where a Streamlit element is drawn. *)
Inductive Place : Type :=
| Main
| Expander (label : string)
| Container
| Tab (label : string)
| Column (i : nat).

Section Script.

Context {DataFrame : Type} `{!Libraries DataFrame}.

(** The Streamlit elements the script draws. *)
Inductive Widget : Type :=
| Warning (body : string)
| Error (body : string)
| Success (body : string)
| Info (body : string)
| Spinner (body : string)
| Markdown (body : string) (unsafe_allow_html : bool)
| Code (body : string)
| Dataframe (df : DataFrame)
| Image (src caption : string).

(** What a run does to the outside world, in order: calls of
    [requests.get] and elements drawn. *)
Inductive Event : Type :=
| Request (url : string)
| Render (place : Place) (w : Widget).

(** A script fragment: from the trace so far to an outcome and the
    extended trace. *)
Definition M (A : Type) : Type := list Event → Outcome A * list Event.

#[export] Instance M_ret : MRet M := λ A a tr, (Return a, tr).
#[export] Instance M_bind : MBind M := λ A B f m tr,
  match m tr with
  | (Return a, tr') => f a tr'
  | (Raise e, tr') => (Raise e, tr')
  end.

Definition raise {A} (e : Exception) : M A := λ tr, (Raise e, tr).

Definition lift {A} (o : Outcome A) : M A := λ tr, (o, tr).

Definition emit (e : Event) : M unit := λ tr, (Return tt, (tr ++ [e])%list).

(** [try: body except <the exceptions handler accepts>: handler] *)
Definition try_except {A} (body : M A)
    (handler : Exception → option (M A)) : M A := λ tr,
  match body tr with
  | (Return a, tr') => (Return a, tr')
  | (Raise e, tr') =>
      match handler e with
      | Some h => h tr'
      | None => (Raise e, tr')
      end
  end.

(** [for x in l: body x] *)
Fixpoint for_each {A} (l : list A) (body : A → M unit) : M unit :=
  match l with
  | [] => mret tt
  | x :: l' => body x;; for_each l' body
  end.

Definition st (place : Place) (w : Widget) : M unit := emit (Render place w).

(** [st.stop()] *)
Definition st_stop {A} : M A := raise StopException.

Definition urlparse_ (url : string) : Outcome ParseResult :=
  or_raise ValueError (urlparse url).

(** *** URL validation (the [try] block around [urlparse(url)]) *)
Definition validate (url : string) : M unit :=
  try_except
    (result ← lift (urlparse_ url);
     if negb (truthy (scheme result) && truthy (netloc result)) then
       st Main (Error "Invalid URL format. Please include http:// or https://");;
       st_stop
     else mret tt)
    (λ e, match e with
          | ValueError => Some (st Main (Error "Invalid URL format");; st_stop)
          | _ => None
          end).

(** *** Fetch *)
Definition headers : gmap string string :=
  {[ "User-Agent" := "Mozilla/5.0 (Windows NT 10.0; Win64; x64) AppleWebKit/537.36 (KHTML, like Gecko) Chrome/91.0.4472.124 Safari/537.36" ]}.

(** [requests.get(url, headers=headers, timeout=10)] *)
Definition get (url : string) : M Response := λ tr,
  match requests_get url headers 10 with
  | Responded r => (Return r, (tr ++ [Request url])%list)
  | Failed msg => (Raise (RequestException msg), (tr ++ [Request url])%list)
  | Escaped name => (Raise (OtherError name), (tr ++ [Request url])%list)
  end.

Definition raise_for_status_ (r : Response) : M unit :=
  match raise_for_status r with
  | Some msg => raise (RequestException msg)
  | None => mret tt
  end.

Definition fetch (url : string) : M string :=
  st Main (Spinner ("Fetching data from " +:+ url +:+ "..."));;
  try_except
    (response ← get url;
     raise_for_status_ response;;
     mret (text response))
    (λ e, match e with
          | RequestException msg =>
              Some (st Main (Error ("Error fetching the website: " +:+ msg));;
                    st_stop)
          | _ => None
          end).

(** *** Paragraphs *)

(** [[p.get_text().strip() for p in soup.find_all('p')
      if p.get_text().strip()]] *)
Definition paragraphs (soup : Tag) : list string :=
  (λ p, strip (get_text p))
    <$> filter (λ p, truthy (strip (get_text p))) (find_all "p" soup).

Definition paragraphs_branch (soup : Tag) : M unit :=
  let paragraphs := paragraphs soup in
  if bool_decide (paragraphs ≠ []) then
    st Container (Markdown "#### Paragraphs Found:" false);;
    for_each (enumerate (take 50 paragraphs)) (λ '(i, para),
      st Container (Markdown ("**Paragraph " +:+ str_of_nat (i + 1) +:+ ":**") false);;
      st Container (Markdown ("<div class=" +:+ dquote +:+ "result-box" +:+ dquote +:+ ">"
                              +:+ para +:+ "</div>") true))
  else st Main (Warning "No paragraphs found on this page.").

(** *** Headings *)

Definition headings (soup : Tag) : list Tag :=
  find_all_in ["h1"; "h2"; "h3"; "h4"; "h5"; "h6"] soup.

(** [int(heading.name[1])] *)
Definition heading_level (heading : Tag) : Outcome nat :=
  c ← str_getitem (name heading) 1; int_of_digit c.

Definition headings_branch (soup : Tag) : M unit :=
  let headings := headings soup in
  if bool_decide (headings ≠ []) then
    st Container (Markdown "#### Headings Structure:" false);;
    for_each headings (λ heading,
      level ← lift (heading_level heading);
      st Container (Markdown (repeat_char "#" level +:+ " "
                              +:+ strip (get_text heading)) false))
  else st Main (Warning "No headings found on this page.").

(** *** Links *)

(** [{"URL": href, "Text": text, "Type": type}] *)
Definition link_record (href text type : string) : gmap string string :=
  {[ "URL" := href; "Text" := text; "Type" := type ]}.

(** The [for link in links] loop, with its two accumulators. *)
Fixpoint links_loop (url : string) (links : list Tag)
    (external_links internal_links : list (gmap string string))
    : Outcome (list (gmap string string) * list (gmap string string)) :=
  match links with
  | [] => Return (external_links, internal_links)
  | link :: rest =>
      href ← tag_getitem link "href";
      if startswith href "http" then
        a ← urlparse_ href;
        b ← urlparse_ url;
        if decide (netloc a = netloc b) then
          links_loop url rest external_links
            (internal_links
               ++ [link_record href (strip (get_text link)) "Internal"])%list
        else
          links_loop url rest
            (external_links
               ++ [link_record href (strip (get_text link)) "External"])%list
            internal_links
      else links_loop url rest external_links internal_links
  end.

Definition links_branch (url : string) (soup : Tag) : M unit :=
  let links := find_all_with "a" "href" soup in
  if bool_decide (links ≠ []) then
    '(external_links, internal_links) ← lift (links_loop url links [] []);
    st Container (Markdown ("Found " +:+ str_of_nat (length external_links)
                            +:+ " external links and "
                            +:+ str_of_nat (length internal_links)
                            +:+ " internal links") false);;
    (if bool_decide (external_links ≠ []) then
       st (Tab "External Links") (Dataframe (pd_DataFrame external_links))
     else st (Tab "External Links") (Info "No external links found"));;
    (if bool_decide (internal_links ≠ []) then
       st (Tab "Internal Links") (Dataframe (pd_DataFrame internal_links))
     else st (Tab "Internal Links") (Info "No internal links found"))
  else st Main (Warning "No links found on this page.").

(** *** Tables *)

(** [pd.read_html(str(table))[0]] *)
Definition read_table (table : Tag) : Outcome DataFrame :=
  dfs ← or_raise PandasError (pd_read_html (tag_str table));
  list_getitem dfs 0.

Definition tables_branch (soup : Tag) : M unit :=
  let tables := find_all "table" soup in
  if bool_decide (tables ≠ []) then
    st Container (Markdown ("Found " +:+ str_of_nat (length tables) +:+ " tables") false);;
    for_each (enumerate (take 3 tables)) (λ '(i, table),
      st Container (Markdown ("#### Table " +:+ str_of_nat (i + 1)) false);;
      try_except
        (df ← lift (read_table table);
         st Container (Dataframe df))
        (λ _, Some (st Container (Warning "Could not parse this table")));;
      st Container (Markdown "---" false))
  else st Main (Warning "No tables found on this page.").

(** *** Images *)

(** The rewriting of [src] under [if src:]. *)
Definition resolve_src (url src : string) : Outcome string :=
  if negb (startswith src "http") then
    if startswith src "/" then
      a ← urlparse_ url;
      b ← urlparse_ url;
      Return (scheme a +:+ "://" +:+ netloc b +:+ src)
    else
      Return (url +:+ "/" +:+ (if negb (endswith url "/") then "/" else "")
              +:+ src)
  else Return src.

(** [alt[:50] + "..." if len(alt) > 50 else alt] *)
Definition caption (alt : string) : string :=
  if (50 <? String.length alt)%nat then slice_to 50 alt +:+ "..." else alt.

Definition images_branch (url : string) (soup : Tag) : M unit :=
  let images := find_all "img" soup in
  if bool_decide (images ≠ []) then
    st Container (Markdown ("Found " +:+ str_of_nat (length images) +:+ " images") false);;
    for_each (enumerate (take 9 images)) (λ '(i, img),
      let src := Bs4.get img "src" "" in
      let alt := Bs4.get img "alt" "No alt text" in
      if truthy src then
        src ← lift (resolve_src url src);
        st (Column (i mod 3)) (Image src (caption alt))
      else mret tt)
  else st Main (Warning "No images found on this page.").

(** *** Everything after the fetch: parse, announce, and the branch of
    the chosen option *)
Definition extract (extraction_choice : Choice) (url html : string) : M unit :=
  let soup := BeautifulSoup html in
  st Main (Success "Successfully fetched website content!");;
  st Main (Markdown ("### Extracted " +:+ lower (choice_label extraction_choice)
                     +:+ " from " +:+ url) false);;
  st (Expander "View Raw HTML (Advanced)")
     (Code (if (2000 <? String.length html)%nat
            then slice_to 2000 html +:+ "..." else html));;
  match extraction_choice with
  | Paragraphs => paragraphs_branch soup
  | Headings => headings_branch soup
  | Links => links_branch url soup
  | Tables => tables_branch soup
  | Images => images_branch url soup
  end.

(** *** The handler of the "Scrape Website" button *)
Definition scrape (extraction_choice : Choice) (url : string) : M unit :=
  if negb (truthy url) then st Main (Warning "Please enter a URL")
  else
    validate url;;
    html ← fetch url;
    extract extraction_choice url html.

(** *** The page around the handler

    What the script draws before and after the handler: page
    configuration, style sheet, title, sidebar, input and button, and the
    footer.  The non-ASCII page icon is held as its UTF-8 bytes. *)
Inductive Chrome : Type :=
| SetPageConfig (page_title page_icon layout : string)
| PageMarkdown (body : string) (unsafe_allow_html : bool)
| Title (body : string)
| SidebarHeader (body : string)
| SidebarRadio (label : string) (options : list string)
| SidebarMarkdown (body : string)
| TextInput (label placeholder : string)
| Button (label : string).

(** An element of the page, or something the handler did. *)
Inductive PageEvent : Type :=
| Drawn (c : Chrome)
| Handled (e : Event).

Definition style_sheet : string := "
<style>
    .main {
        max-width: 1000px;
        padding: 2rem;
    }
    .stTextInput input {
        font-size: 16px !important;
    }
    .stButton button {
        background-color: #4CAF50;
        color: white;
        border: none;
        padding: 10px 24px;
        text-align: center;
        text-decoration: none;
        display: inline-block;
        font-size: 16px;
        margin: 4px 2px;
        cursor: pointer;
        border-radius: 4px;
    }
    .stButton button:hover {
        background-color: #45a049;
    }
    .result-box {
        border: 1px solid #ddd;
        border-radius: 4px;
        padding: 1rem;
        margin-top: 1rem;
        background-color: #f9f9f9;
    }
    .footer {
        margin-top: 2rem;
        text-align: center;
        color: #666;
        font-size: 0.8rem;
    }
</style>
".

(** Everything drawn up to and including the button. *)
Definition page_top : list Chrome :=
  [SetPageConfig "Interactive Web Scraper" "🌐" "wide";
   PageMarkdown style_sheet true;
   Title "🌐 Interactive Web Scraper";
   PageMarkdown "Extract content from any website with this easy-to-use tool." false;
   SidebarHeader "Options";
   SidebarRadio "What would you like to extract?"
     (choice_label <$> [Paragraphs; Headings; Links; Tables; Images]);
   SidebarMarkdown "---";
   SidebarMarkdown "**Note:**";
   SidebarMarkdown "- Some websites may block scraping attempts";
   SidebarMarkdown "- Always respect robots.txt and terms of service";
   SidebarMarkdown "- For JavaScript-heavy sites, consider using browser automation";
   TextInput "Enter website URL:" "https://example.com";
   Button "Scrape Website"].

Definition page_footer : list Chrome :=
  [PageMarkdown "---" false;
   PageMarkdown ("<div class=" +:+ dquote +:+ "footer" +:+ dquote
                 +:+ ">Web Scraper App - Use responsibly and respect website terms of service</div>")
     true].

(** One run of the whole script.  The radio button answers
    [extraction_choice], the text input [url], the button [pressed].  An
    exception that leaves the handler ([st.stop()] included) ends the run
    before the footer. *)
Definition app (extraction_choice : Choice) (url : string) (pressed : bool)
    : Outcome unit * list PageEvent :=
  if pressed then
    match scrape extraction_choice url [] with
    | (Return _, tr) =>
        (Return tt,
         ((Drawn <$> page_top) ++ (Handled <$> tr) ++ (Drawn <$> page_footer))%list)
    | (Raise e, tr) =>
        (Raise e, ((Drawn <$> page_top) ++ (Handled <$> tr))%list)
    end
  else (Return tt, ((Drawn <$> page_top) ++ (Drawn <$> page_footer))%list).

(** ** Vocabulary of the statements *)

(** A string that is empty or starts with a character that is no space. *)
Definition head_nonspace (s : string) : Prop :=
  match s with
  | EmptyString => True
  | String c _ => isspace c = false
  end.

(** A string of whitespace only. *)
Fixpoint all_space (s : string) : bool :=
  match s with
  | EmptyString => true
  | String c s' => isspace c && all_space s'
  end.

(** The last character of a string. *)
Fixpoint last_char (s : string) : option ascii :=
  match s with
  | EmptyString => None
  | String c EmptyString => Some c
  | String _ s' => last_char s'
  end.

(** The first character of a string. *)
Definition first_char (s : string) : option ascii :=
  match s with
  | EmptyString => None
  | String c _ => Some c
  end.

(** What [s[:n] + "..." if len(s) > n else s] gives. *)
Definition with_ellipsis (n : nat) (s : string) : string :=
  if (n <? String.length s)%nat then slice_to n s +:+ "..." else s.

(** A record of a bucket of the given type: the three keys and no other,
    an address with the absolute marker, a trimmed text. *)
Definition bucket_record (type : string) (r : gmap string string) : Prop :=
  r !! "Type" = Some type
  ∧ dom r = ({[ "URL"; "Text"; "Type" ]} : gset string)
  ∧ ∃ href text,
      r !! "URL" = Some href ∧ r !! "Text" = Some text
      ∧ startswith href "http" ∧ strip text = text.

Section Vocabulary.

(** From any trace, [m] ends in [o] and appends exactly [out]. *)
Definition writes {A} (m : M A) (o : Outcome A) (out : list Event) : Prop :=
  ∀ tr, m tr = (o, (tr ++ out)%list).

Definition is_render (e : Event) : Prop :=
  match e with
  | Render _ _ => True
  | Request _ => False
  end.

(** [m] only draws: its outcome and what it appends do not depend on the
    trace it starts from, and it appends no [Request]. *)
Definition draws_only {A} (m : M A) : Prop :=
  ∃ o out, writes m o out ∧ Forall is_render out.

(** The two elements drawn for the paragraph numbered [i] from 0. *)
Definition paragraph_box (entry : nat * string) : list Event :=
  [Render Container
     (Markdown ("**Paragraph " +:+ str_of_nat (entry.1 + 1) +:+ ":**") false);
   Render Container
     (Markdown ("<div class=" +:+ dquote +:+ "result-box" +:+ dquote +:+ ">"
                +:+ entry.2 +:+ "</div>") true)].

(** The line drawn for a heading of the given level and text. *)
Definition heading_line (entry : nat * string) : Event :=
  Render Container
    (Markdown (repeat_char "#" entry.1 +:+ " " +:+ entry.2) false).

(** What fills the slot of a table: its first frame, or the failure
    marker when [pd.read_html] raises or has no frame to give. *)
Definition slot_content (table : Tag) : Widget :=
  match pd_read_html (tag_str table) with
  | Some (df :: _) => Dataframe df
  | _ => Warning "Could not parse this table"
  end.

(** The three elements drawn for the table numbered [i] from 0. *)
Definition table_slot (entry : nat * Tag) : list Event :=
  [Render Container (Markdown ("#### Table " +:+ str_of_nat (entry.1 + 1)) false);
   Render Container (slot_content entry.2);
   Render Container (Markdown "---" false)].

(** The [href] of an anchor that has one. *)
Definition href (link : Tag) : string := Bs4.get link "href" "".




(** [img.get('src', '')] and [img.get('alt', 'No alt text')] *)
Definition src_of (img : Tag) : string := Bs4.get img "src" "".
Definition alt_of (img : Tag) : string := Bs4.get img "alt" "No alt text".

(** The address drawn for [src] under a source URL that parsed to [u]. *)
Definition resolved (url : string) (u : ParseResult) (src : string) : string :=
  if startswith src "http" then src
  else if startswith src "/" then scheme u +:+ "://" +:+ netloc u +:+ src
  else url +:+ "/" +:+ (if endswith url "/" then "" else "/") +:+ src.

(** The element drawn for the image at position [i] of the first nine. *)
Definition image_cell (url : string) (u : ParseResult) (entry : nat * Tag)
    : Event :=
  Render (Column (entry.1 mod 3))
    (Image (resolved url u (src_of entry.2)) (caption (alt_of entry.2))).

(** The images of a trace: address and caption, in order. *)
Definition drawn_images (tr : list Event) : list (string * string) :=
  omap (λ e, match e with
             | Render (Column _) (Image src cap) => Some (src, cap)
             | _ => None
             end) tr.

(** The Images result as claim C2 words it: skip the empty sources, then
    keep nine. *)
Definition images_filter_then_cap (soup : Tag) : list Tag :=
  take 9 (filter (λ img, truthy (src_of img)) (find_all "img" soup)).

(** The test of the validation block: the URL is not empty, parses, and
    has a scheme and a host. *)
Definition passes_validation (url : string) : Prop :=
  url ≠ "" ∧ ∃ r, urlparse url = Some r ∧ scheme r ≠ "" ∧ netloc r ≠ "".

(** The test as claim C4 words it: scheme [http] or [https], and a host. *)
Definition recognized (url : string) : Prop :=
  ∃ r, urlparse url = Some r
       ∧ (scheme r = "http" ∨ scheme r = "https") ∧ netloc r ≠ "".

(** The reason of a failed fetch: the message of the exception raised by
    [requests.get], or by [raise_for_status] on the response. *)
Definition fetch_failure (url : string) : option string :=
  match requests_get url headers 10 with
  | Failed msg => Some msg
  | Responded r => raise_for_status r
  | Escaped _ => None
  end.

(** [m] only draws and its outcome satisfies [Q]. *)
Definition ends_in {A} (Q : Outcome A → Prop) (m : M A) : Prop :=
  ∃ o out, writes m o out ∧ Forall is_render out ∧ Q o.

(** The outcomes of a branch: it returns, or, in the Links branch only,
    it raises the [ValueError] of [urlparse]. *)
Definition branch_outcome (extraction_choice : Choice) (o : Outcome unit)
    : Prop :=
  o = Return tt ∨ (extraction_choice = Links ∧ o = Raise ValueError).

(** The addresses requested in a trace, in order. *)
Definition requests_of (tr : list Event) : list string :=
  omap (λ e, match e with
             | Request u => Some u
             | Render _ _ => None
             end) tr.

(** The addresses requested in a run of the whole script. *)
Definition page_requests (tr : list PageEvent) : list string :=
  omap (λ e, match e with
             | Handled (Request u) => Some u
             | _ => None
             end) tr.

(** The three announcements that open every extraction. *)
Definition preamble (extraction_choice : Choice) (url html : string)
    : list Event :=
  [Render Main (Success "Successfully fetched website content!");
   Render Main
     (Markdown ("### Extracted " +:+ lower (choice_label extraction_choice)
                +:+ " from " +:+ url) false);
   Render (Expander "View Raw HTML (Advanced)") (Code (with_ellipsis 2000 html))].

End Vocabulary.

(** * Properties *)

(** ** Strings *)

Lemma truthy_nonempty (s : string) : truthy s ↔ s ≠ "".
Proof. destruct s; simpl; split; intros; try done. Qed.

Lemma lstrip_head_nonspace (s : string) : head_nonspace (lstrip s).
Proof.
  induction s as [|c s IH]; simpl; [done|].
  destruct (isspace c) eqn:Hc; simpl; done.
Qed.

Lemma lstrip_fixed (s : string) : head_nonspace s → lstrip s = s.
Proof. destruct s as [|c s]; simpl; [done|]. by intros ->. Qed.

Lemma rstrip_head_nonspace (s : string) :
  head_nonspace s → head_nonspace (rstrip s).
Proof.
  destruct s as [|c s]; simpl; [done|]. intros Hc.
  destruct (rstrip s); rewrite ?Hc; done.
Qed.

Lemma rstrip_idempotent (s : string) : rstrip (rstrip s) = rstrip s.
Proof.
  induction s as [|c s IH]; simpl; [done|].
  destruct (rstrip s) as [|d r] eqn:Hr.
  - destruct (isspace c) eqn:Hc; simpl; by rewrite ?Hc.
  - change (rstrip (String c (String d r))) with
      (match rstrip (String d r) with
       | EmptyString => if isspace c then EmptyString else String c EmptyString
       | String a r0 => String c (String a r0)
       end).
    by rewrite IH.
Qed.

Lemma strip_idempotent (s : string) : strip (strip s) = strip s.
Proof.
  unfold strip.
  rewrite (lstrip_fixed (rstrip (lstrip s))).
  - apply rstrip_idempotent.
  - apply rstrip_head_nonspace, lstrip_head_nonspace.
Qed.

(** ** The trace monad *)

Section Monad.

Lemma writes_ret {A} (a : A) : writes (mret a) (Return a) [].
Proof. intros tr. by rewrite app_nil_r. Qed.

Lemma writes_raise {A} (e : Exception) : writes (raise (A:=A) e) (Raise e) [].
Proof. intros tr. by rewrite app_nil_r. Qed.

Lemma writes_lift {A} (o : Outcome A) : writes (lift o) o [].
Proof. intros tr. by rewrite app_nil_r. Qed.

Lemma writes_st (p : Place) (w : Widget) :
  writes (st p w) (Return tt) [Render p w].
Proof. by intros tr. Qed.

Lemma writes_bind {A B} (m : M A) (f : A → M B) a out1 o out2 :
  writes m (Return a) out1 → writes (f a) o out2 →
  writes (m ≫= f) o (out1 ++ out2).
Proof.
  intros Hm Hf tr. unfold mbind, M_bind.
  by rewrite Hm, Hf, app_assoc.
Qed.

Lemma writes_bind_raise {A B} (m : M A) (f : A → M B) e out :
  writes m (Raise e) out → writes (m ≫= f) (Raise e) out.
Proof. intros Hm tr. unfold mbind, M_bind. by rewrite Hm. Qed.

Lemma writes_try {A} (body : M A) handler a out :
  writes body (Return a) out → writes (try_except body handler) (Return a) out.
Proof. intros Hb tr. unfold try_except. by rewrite Hb. Qed.

Lemma writes_try_caught {A} (body : M A) handler e h out1 o out2 :
  writes body (Raise e) out1 → handler e = Some h → writes h o out2 →
  writes (try_except body handler) o (out1 ++ out2).
Proof.
  intros Hb He Hh tr. unfold try_except.
  by rewrite Hb, He, Hh, app_assoc.
Qed.

Lemma writes_try_uncaught {A} (body : M A) handler e out :
  writes body (Raise e) out → handler e = None →
  writes (try_except body handler) (Raise e) out.
Proof. intros Hb He tr. unfold try_except. by rewrite Hb, He. Qed.

Lemma writes_for_each {A} (l : list A) (body : A → M unit) g :
  Forall (λ x, writes (body x) (Return tt) (g x)) l →
  writes (for_each l body) (Return tt) (flat_map g l).
Proof.
  induction 1 as [|x l Hx _ IH]; simpl.
  - apply writes_ret.
  - by apply (writes_bind _ _ tt).
Qed.

End Monad.

(** ** Paragraphs *)

Section ParagraphsProperties.

(** The comprehension keeps, in order, the trimmed texts that are not
    empty. *)
Lemma paragraphs_filter_trimmed (soup : Tag) :
  paragraphs soup
  = filter (λ s, s ≠ "") ((λ p, strip (get_text p)) <$> find_all "p" soup).
Proof.
  unfold paragraphs. induction (find_all "p" soup) as [|p ps IH]; [done|].
  rewrite fmap_cons, !filter_cons.
  destruct (decide (truthy (strip (get_text p)))) as [Hp|Hp];
    destruct (decide (strip (get_text p) ≠ "")) as [Hq|Hq].
  - by rewrite fmap_cons, IH.
  - by apply truthy_nonempty in Hp.
  - by apply truthy_nonempty in Hq.
  - done.
Qed.

Lemma paragraphs_trimmed_nonempty (soup : Tag) :
  Forall (λ e, strip e = e ∧ e ≠ "") (paragraphs soup).
Proof.
  rewrite paragraphs_filter_trimmed. apply Forall_forall. intros e He.
  apply list_elem_of_filter in He as [Hne He].
  apply list_elem_of_fmap in He as (p & -> & _).
  split; [apply strip_idempotent | done].
Qed.

Lemma writes_paragraph_boxes (shown : list (nat * string)) :
  writes
    (for_each shown (λ '(i, para),
       st Container (Markdown ("**Paragraph " +:+ str_of_nat (i + 1) +:+ ":**") false);;
       st Container (Markdown ("<div class=" +:+ dquote +:+ "result-box" +:+ dquote +:+ ">"
                               +:+ para +:+ "</div>") true)))
    (Return tt) (flat_map paragraph_box shown).
Proof.
  apply writes_for_each, Forall_forall. intros [i para] _.
  apply (writes_bind _ _ tt [_] _ [_]); apply writes_st.
Qed.

(** C6: the Paragraphs branch draws at most 50 entries, each of them
    non-empty after trimming, and they are the first 50 non-empty trimmed
    texts of the [p] elements in document order. *)
Theorem paragraphs_at_most_50_nonempty_in_order (soup : Tag) :
  let shown := take 50 (paragraphs soup) in
  (length shown ≤ 50)%nat
  ∧ Forall (λ e, strip e ≠ "") shown
  ∧ shown = take 50 (filter (λ s, s ≠ "")
                       ((λ p, strip (get_text p)) <$> find_all "p" soup))
  ∧ writes (paragraphs_branch soup) (Return tt)
      (if decide (shown = [])
       then [Render Main (Warning "No paragraphs found on this page.")]
       else Render Container (Markdown "#### Paragraphs Found:" false)
              :: flat_map paragraph_box (enumerate shown)).
Proof.
  intros shown. split_and!.
  - subst shown. rewrite length_take. lia.
  - subst shown. eapply Forall_impl.
    + apply Forall_take, paragraphs_trimmed_nonempty.
    + intros e [-> ?]. done.
  - subst shown. by rewrite paragraphs_filter_trimmed.
  - unfold paragraphs_branch. fold shown.
    destruct (paragraphs soup) as [|e es] eqn:Hps.
    + subst shown. simpl. apply writes_st.
    + rewrite bool_decide_eq_true_2 by done.
      destruct (decide (shown = [])) as [Hs|Hs]; [by subst shown|].
      apply (writes_bind _ _ tt [_]); [apply writes_st|].
      apply writes_paragraph_boxes.
Qed.

End ParagraphsProperties.

(** ** Headings *)

Section HeadingsProperties.

(** On a tag that [find_all] selected, [int(heading.name[1])] does not
    raise and reads the digit of the name. *)
Lemma heading_level_of_name (heading : Tag) :
  name heading ∈ ["h1"; "h2"; "h3"; "h4"; "h5"; "h6"] →
  ∃ level, (1 ≤ level ≤ 6)%nat
           ∧ name heading = "h" +:+ str_of_nat level
           ∧ heading_level heading = Return level.
Proof.
  intros Hin. unfold heading_level.
  repeat (apply elem_of_cons in Hin as [Hin|Hin]);
    [exists 1%nat | exists 2%nat | exists 3%nat | exists 4%nat | exists 5%nat
     | exists 6%nat | by apply elem_of_nil in Hin];
    rewrite Hin; (split; [lia | split; reflexivity]).
Qed.

Lemma writes_heading_lines (hs : list Tag) (entries : list (nat * string)) :
  Forall2 (λ heading entry,
             heading_level heading = Return entry.1
             ∧ entry.2 = strip (get_text heading)) hs entries →
  writes
    (for_each hs (λ heading,
       level ← lift (heading_level heading);
       st Container (Markdown (repeat_char "#" level +:+ " "
                               +:+ strip (get_text heading)) false)))
    (Return tt) (heading_line <$> entries).
Proof.
  induction 1 as [|h [level text] hs entries [Hl Ht] _ IH]; simpl.
  - apply writes_ret.
  - simpl in Hl, Ht. subst text.
    apply (writes_bind _ _ tt [_]); [|exact IH].
    rewrite Hl. apply (writes_bind _ _ level []); [apply writes_lift|].
    apply writes_st.
Qed.

(** C7: the Headings branch draws exactly one line per [h1]..[h6] element,
    in document order; its level is the digit of the tag name and its text
    the trimmed inner text; no heading is dropped or cut. *)
Theorem headings_one_entry_per_tag (soup : Tag) :
  ∃ entries : list (nat * string),
    Forall2 (λ heading entry,
               (1 ≤ entry.1 ≤ 6)%nat
               ∧ name heading = "h" +:+ str_of_nat entry.1
               ∧ entry.2 = strip (get_text heading))
      (filter (λ t, name t ∈ ["h1"; "h2"; "h3"; "h4"; "h5"; "h6"])
         (descendant_tags soup))
      entries
    ∧ writes (headings_branch soup) (Return tt)
        (if decide (entries = [])
         then [Render Main (Warning "No headings found on this page.")]
         else Render Container (Markdown "#### Headings Structure:" false)
                :: (heading_line <$> entries)).
Proof.
  assert (∃ entries : list (nat * string),
             Forall2 (λ heading entry,
                        ((1 ≤ entry.1 ≤ 6)%nat
                         ∧ name heading = "h" +:+ str_of_nat entry.1
                         ∧ entry.2 = strip (get_text heading))
                        ∧ heading_level heading = Return entry.1)
               (headings soup) entries) as [entries Hall].
  { assert (Forall (λ t, name t ∈ ["h1"; "h2"; "h3"; "h4"; "h5"; "h6"])
              (headings soup)) as Hnames.
    { apply Forall_forall. intros t Ht.
      by apply list_elem_of_filter in Ht as [? _]. }
    induction Hnames as [|h hs Hh _ [entries IH]]; [by exists []|].
    destruct (heading_level_of_name h Hh) as (level & ? & ? & ?).
    exists ((level, strip (get_text h)) :: entries). by constructor. }
  exists entries. split.
  - eapply Forall2_impl; [exact Hall|]. by intros h e [? _].
  - unfold headings_branch.
    destruct Hall as [|h e hs entries He Hall].
    + simpl. apply writes_st.
    + rewrite bool_decide_eq_true_2 by done.
      rewrite decide_False by done.
      apply (writes_bind _ _ tt [_]); [apply writes_st|].
      apply writes_heading_lines. constructor.
      * by destruct He as [(_ & _ & ?) ?].
      * eapply Forall2_impl; [exact Hall|]. by intros ? ? [(_ & _ & ?) ?].
Qed.

End HeadingsProperties.

(** ** Tables *)

Section TablesProperties.

(** One pass of the loop body: title, frame or failure marker, rule; it
    never raises. *)
Lemma writes_table_slot (i : nat) (table : Tag) :
  writes
    (st Container (Markdown ("#### Table " +:+ str_of_nat (i + 1)) false);;
     try_except
       (df ← lift (read_table table);
        st Container (Dataframe df))
       (λ _, Some (st Container (Warning "Could not parse this table")));;
     st Container (Markdown "---" false))
    (Return tt) (table_slot (i, table)).
Proof.
  unfold table_slot; simpl.
  apply (writes_bind _ _ tt [_] _ [_; _]); [apply writes_st|].
  apply (writes_bind _ _ tt [_] _ [_]); [|apply writes_st].
  unfold slot_content, read_table.
  destruct (pd_read_html (tag_str table)) as [[|df dfs]|]; simpl.
  - eapply (writes_try_caught _ _ IndexError _ [] _ [_]);
      [|reflexivity|apply writes_st].
    apply writes_bind_raise, writes_lift.
  - apply writes_try.
    apply (writes_bind _ _ df [] _ [_]); [apply writes_lift|apply writes_st].
  - eapply (writes_try_caught _ _ PandasError _ [] _ [_]);
      [|reflexivity|apply writes_st].
    apply writes_bind_raise, writes_lift.
Qed.

(** C5: the Tables branch considers the first [min 3 n] of the [n]
    [table] elements, in document order, and draws one slot for each of
    them: a table that cannot be read gets the failure marker in its slot,
    and the loop goes on with the next table. *)
Theorem tables_first_three_slots (soup : Tag) :
  let tables := find_all "table" soup in
  let considered := take 3 tables in
  length considered = min 3 (length tables)
  ∧ length (flat_map table_slot (enumerate considered))
    = (3 * min 3 (length tables))%nat
  ∧ writes (tables_branch soup) (Return tt)
      (if decide (tables = [])
       then [Render Main (Warning "No tables found on this page.")]
       else Render Container
              (Markdown ("Found " +:+ str_of_nat (length tables) +:+ " tables") false)
              :: flat_map table_slot (enumerate considered)).
Proof.
  intros tables considered. split_and!.
  - apply length_take.
  - rewrite <- (length_take tables 3). fold considered.
    rewrite <- (length_imap pair considered). fold (enumerate considered).
    induction (enumerate considered) as [|e es IH]; simpl; lia.
  - unfold tables_branch. fold tables. fold considered.
    destruct (decide (tables = [])) as [Ht|Ht].
    + rewrite bool_decide_eq_false_2 by (by intros ?). apply writes_st.
    + rewrite bool_decide_eq_true_2 by done.
      apply (writes_bind _ _ tt [_]); [apply writes_st|].
      apply writes_for_each, Forall_forall. intros [i table] _.
      apply writes_table_slot.
Qed.

End TablesProperties.

(** ** Links *)

Section LinksProperties.



(** An absolute [href] that [urlparse] refuses stops the loop with the
    [ValueError]: the branch has no handler for it. *)
Lemma links_loop_unparsable_href (url : string) (link : Tag) (h : string)
    (rest : list Tag) external_links internal_links :
  attrs link !! "href" = Some h → startswith h "http" → urlparse h = None →
  links_loop url (link :: rest) external_links internal_links = Raise ValueError.
Proof.
  intros Hh Hs Hp. simpl. unfold tag_getitem. rewrite Hh. simpl.
  destruct (startswith h "http"); [|done].
  unfold urlparse_. by rewrite Hp.
Qed.

End LinksProperties.

(** ** Fragments that only draw *)

Section DrawsOnly.

Lemma draws_only_ret {A} (a : A) : draws_only (mret a).
Proof. exists (Return a), []. split; [apply writes_ret | constructor]. Qed.

Lemma draws_only_lift {A} (o : Outcome A) : draws_only (lift o).
Proof. exists o, []. split; [apply writes_lift | constructor]. Qed.

Lemma draws_only_st (p : Place) (w : Widget) : draws_only (st p w).
Proof.
  exists (Return tt), [Render p w]. split; [apply writes_st|].
  by repeat constructor.
Qed.

Lemma draws_only_bind {A B} (m : M A) (f : A → M B) :
  draws_only m → (∀ a, draws_only (f a)) → draws_only (m ≫= f).
Proof.
  intros ([a|e] & out1 & Hm & Hout1) Hf.
  - destruct (Hf a) as (o & out2 & Hfa & Hout2).
    exists o, (out1 ++ out2)%list. split.
    + by apply (writes_bind _ _ a).
    + by apply Forall_app.
  - exists (Raise e), out1. split; [by apply writes_bind_raise | done].
Qed.

Lemma draws_only_try {A} (body : M A) handler :
  draws_only body →
  (∀ e h, handler e = Some h → draws_only h) →
  draws_only (try_except body handler).
Proof.
  intros ([a|e] & out1 & Hb & Hout1) Hh.
  - exists (Return a), out1. split; [by apply writes_try | done].
  - destruct (handler e) as [h|] eqn:He.
    + destruct (Hh e h He) as (o & out2 & Hw & Hout2).
      exists o, (out1 ++ out2)%list. split.
      * by apply (writes_try_caught _ _ e h).
      * by apply Forall_app.
    + exists (Raise e), out1. split; [by apply writes_try_uncaught | done].
Qed.

Lemma draws_only_for_each {A} (l : list A) (body : A → M unit) :
  (∀ x, draws_only (body x)) → draws_only (for_each l body).
Proof.
  intros Hbody. induction l as [|x l IH]; simpl.
  - apply draws_only_ret.
  - apply draws_only_bind; [apply Hbody | by intros _].
Qed.

Lemma draws_only_paragraphs (soup : Tag) : draws_only (paragraphs_branch soup).
Proof.
  unfold paragraphs_branch. case_bool_decide; [|apply draws_only_st].
  apply draws_only_bind; [apply draws_only_st | intros _].
  apply draws_only_for_each. intros [i para].
  apply draws_only_bind; [apply draws_only_st | intros _; apply draws_only_st].
Qed.

Lemma draws_only_headings (soup : Tag) : draws_only (headings_branch soup).
Proof.
  unfold headings_branch. case_bool_decide; [|apply draws_only_st].
  apply draws_only_bind; [apply draws_only_st | intros _].
  apply draws_only_for_each. intros heading.
  apply draws_only_bind; [apply draws_only_lift | intros level; apply draws_only_st].
Qed.

Lemma draws_only_links (url : string) (soup : Tag) :
  draws_only (links_branch url soup).
Proof.
  unfold links_branch. case_bool_decide; [|apply draws_only_st].
  apply draws_only_bind; [apply draws_only_lift|].
  intros [external_links internal_links].
  apply draws_only_bind; [apply draws_only_st | intros _].
  apply draws_only_bind; [|intros _];
    case_bool_decide; apply draws_only_st.
Qed.

Lemma draws_only_tables (soup : Tag) : draws_only (tables_branch soup).
Proof.
  unfold tables_branch. case_bool_decide; [|apply draws_only_st].
  apply draws_only_bind; [apply draws_only_st | intros _].
  apply draws_only_for_each. intros [i table].
  apply draws_only_bind; [apply draws_only_st | intros _].
  apply draws_only_bind; [|intros _; apply draws_only_st].
  apply draws_only_try.
  - apply draws_only_bind; [apply draws_only_lift | intros df; apply draws_only_st].
  - intros e h [= <-]. apply draws_only_st.
Qed.

Lemma draws_only_images (url : string) (soup : Tag) :
  draws_only (images_branch url soup).
Proof.
  unfold images_branch. case_bool_decide; [|apply draws_only_st].
  apply draws_only_bind; [apply draws_only_st | intros _].
  apply draws_only_for_each. intros [i img].
  destruct (truthy (Bs4.get img "src" "")); [|apply draws_only_ret].
  apply draws_only_bind; [apply draws_only_lift | intros src; apply draws_only_st].
Qed.

Lemma draws_only_extract (extraction_choice : Choice) (url html : string) :
  draws_only (extract extraction_choice url html).
Proof.
  unfold extract.
  do 3 (apply draws_only_bind; [apply draws_only_st | intros _]).
  destruct extraction_choice;
    auto using draws_only_paragraphs, draws_only_headings, draws_only_links,
      draws_only_tables, draws_only_images.
Qed.

(** The extraction, from whatever trace it starts, ends in the same
    outcome and appends the same elements, none of them a request.  This
    is about the calls the script makes itself; what the libraries do
    inside their calls is not part of the model. *)
Lemma extract_appends_no_request
    (extraction_choice : Choice) (url html : string) (tr1 tr2 : list Event) :
  ∃ o out,
    extract extraction_choice url html tr1 = (o, (tr1 ++ out)%list)
    ∧ extract extraction_choice url html tr2 = (o, (tr2 ++ out)%list)
    ∧ Forall is_render out.
Proof.
  destruct (draws_only_extract extraction_choice url html) as (o & out & Hw & Hr).
  exists o, out. by rewrite !Hw.
Qed.

End DrawsOnly.

(** ** Images *)

Section ImagesProperties.

Lemma resolve_src_resolved (url : string) (u : ParseResult) (src : string) :
  urlparse url = Some u → resolve_src url src = Return (resolved url u src).
Proof.
  intros Hu. unfold resolve_src, resolved, urlparse_. rewrite Hu.
  destruct (startswith src "http"); simpl; [done|].
  destruct (startswith src "/"); simpl; [done|].
  by destruct (endswith url "/").
Qed.

Lemma flat_map_optional {A B} (P : A → Prop) `{∀ x, Decision (P x)}
    (f : A → B) (l : list A) :
  flat_map (λ x, if decide (P x) then [f x] else []) l = f <$> filter P l.
Proof.
  induction l as [|x l IH]; simpl; [done|].
  rewrite filter_cons. destruct (decide (P x)); simpl; by rewrite IH.
Qed.

Lemma filter_indexed_snd {A} (P : A → Prop) `{∀ x, Decision (P x)}
    (l : list A) (f : nat → nat) :
  (filter (λ e, P e.2) (imap (λ i x, (f i, x)) l)).*2 = filter P l.
Proof.
  revert f. induction l as [|x l IH]; intros f; simpl; [done|].
  rewrite !filter_cons. simpl.
  destruct (decide (P x)); simpl; [f_equal|]; apply (IH (f ∘ S)).
Qed.

Lemma length_filter_all {A} (P : A → Prop) `{∀ x, Decision (P x)} (l : list A) :
  length (filter P l) = length l ↔ Forall P l.
Proof.
  induction l as [|x l IH]; simpl.
  - split; [constructor | done].
  - rewrite filter_cons. destruct (decide (P x)) as [Hx|Hx]; simpl.
    + rewrite Forall_cons. split.
      * intros [= Hl]. split; [done | by apply IH].
      * intros [_ Hl]. f_equal. by apply IH.
    + pose proof (length_filter P l). split; [lia|].
      intros Hl. by apply Forall_cons in Hl as [? _].
Qed.

(** C2, as the code has it: the branch takes the first nine [img]
    elements in document order and then skips those of them whose [src] is
    empty.  So at most nine images are drawn, and nine are drawn iff the
    document has nine [img] elements and the first nine all have a
    non-empty [src]. *)
Theorem images_cap_then_skip_empty (url : string) (u : ParseResult) (soup : Tag) :
  urlparse url = Some u →
  let images := find_all "img" soup in
  let kept := filter (λ e, truthy (src_of e.2)) (enumerate (take 9 images)) in
  writes (images_branch url soup) (Return tt)
    (if decide (images = [])
     then [Render Main (Warning "No images found on this page.")]
     else Render Container
            (Markdown ("Found " +:+ str_of_nat (length images) +:+ " images") false)
            :: (image_cell url u <$> kept))
  ∧ kept.*2 = filter (λ img, truthy (src_of img)) (take 9 images)
  ∧ (length kept ≤ 9)%nat
  ∧ (length kept = 9%nat
     ↔ (9 ≤ length images)%nat
       ∧ Forall (λ img, truthy (src_of img)) (take 9 images)).
Proof.
  intros Hu images kept.
  assert (kept.*2 = filter (λ img, truthy (src_of img)) (take 9 images)) as Hkept.
  { exact (filter_indexed_snd (λ img, truthy (src_of img)) (take 9 images) id). }
  assert (length kept = length (filter (λ img, truthy (src_of img)) (take 9 images)))
    as Hlen by (by rewrite <- Hkept, length_fmap).
  pose proof (length_filter (λ img, truthy (src_of img)) (take 9 images)) as Hle.
  pose proof (length_take images 9) as Htake.
  split_and!; [|done|lia|].
  - unfold images_branch. fold images.
    destruct (decide (images = [])) as [Hi|Hi].
    + rewrite bool_decide_eq_false_2 by (by intros ?). apply writes_st.
    + rewrite bool_decide_eq_true_2 by done.
      apply (writes_bind _ _ tt [_]); [apply writes_st|].
      unfold kept.
      rewrite <- (flat_map_optional (λ e : nat * Tag, truthy (src_of e.2))).
      apply writes_for_each, Forall_forall. intros [i img] _. simpl.
      fold (src_of img). fold (alt_of img).
      destruct (truthy (src_of img)) eqn:Hsrc.
      * rewrite decide_True by done.
        rewrite (resolve_src_resolved url u) by done.
        apply (writes_bind _ _ (resolved url u (src_of img)) [] _ [_]);
          [apply writes_lift|].
        apply writes_st.
      * rewrite decide_False by (intros Hc; exact Hc). apply writes_ret.
  - rewrite Hlen. split.
    + intros H9. assert (length (take 9 images) = 9%nat) as Ht by lia.
      split; [lia|].
      apply (length_filter_all (λ img, truthy (src_of img)) (take 9 images)). lia.
    + intros [H9 Hall].
      apply (length_filter_all (λ img, truthy (src_of img)) (take 9 images)) in Hall.
      lia.
Qed.

(** Whatever the source URL, a [src] that starts with neither [http] nor
    [/] is appended after two separators, or after one when the URL ends
    with one already: the address never has a single [/] between them. *)
Lemma resolve_src_bare_relative (url src : string) :
  startswith src "http" = false → startswith src "/" = false →
  resolve_src url src
  = Return (url +:+ (if endswith url "/" then "/" else "//") +:+ src).
Proof.
  intros Hh Hs. unfold resolve_src. rewrite Hh, Hs. simpl.
  by destruct (endswith url "/").
Qed.

(** C1, at the input of the claim: [b.png] under
    [https://ex.com/page] is drawn as [https://ex.com/page//b.png], with
    two separators and not one. *)
Theorem bare_relative_src_gets_two_slashes :
  resolve_src "https://ex.com/page" "b.png" = Return "https://ex.com/page//b.png"
  ∧ resolve_src "https://ex.com/page" "b.png" ≠ Return "https://ex.com/page/b.png"
  ∧ resolve_src "https://ex.com/" "b.png" = Return "https://ex.com//b.png".
Proof. split_and!; [reflexivity | discriminate | reflexivity]. Qed.

End ImagesProperties.

(** ** Validation and fetch *)

Section GateProperties.

Lemma writes_validate_pass (url : string) (r : ParseResult) :
  urlparse url = Some r → scheme r ≠ "" → netloc r ≠ "" →
  writes (validate url) (Return tt) [].
Proof.
  intros Hr Hs Hn. unfold validate. apply writes_try.
  unfold urlparse_. rewrite Hr. simpl.
  apply (writes_bind _ _ r [] _ []); [apply writes_lift|].
  apply truthy_nonempty, Is_true_true in Hs, Hn. rewrite Hs, Hn. simpl.
  apply writes_ret.
Qed.

Lemma writes_validate_unparsable (url : string) :
  urlparse url = None →
  writes (validate url) (Raise StopException)
    [Render Main (Error "Invalid URL format")].
Proof.
  intros Hr. unfold validate.
  eapply (writes_try_caught _ _ ValueError _ [] _ [_]); [|reflexivity|].
  - unfold urlparse_. rewrite Hr. simpl. apply writes_bind_raise, writes_lift.
  - apply (writes_bind _ _ tt [_] _ []); [apply writes_st | apply writes_raise].
Qed.

Lemma writes_validate_incomplete (url : string) (r : ParseResult) :
  urlparse url = Some r → scheme r = "" ∨ netloc r = "" →
  writes (validate url) (Raise StopException)
    [Render Main (Error "Invalid URL format. Please include http:// or https://")].
Proof.
  intros Hr Hempty. unfold validate.
  apply writes_try_uncaught; [|done].
  unfold urlparse_. rewrite Hr. simpl.
  apply (writes_bind _ _ r [] _ [_]); [apply writes_lift|].
  assert (truthy (scheme r) && truthy (netloc r) = false) as ->.
  { destruct Hempty as [-> | ->]; simpl; [done | apply andb_false_r]. }
  simpl. apply (writes_bind _ _ tt [_] _ []); [apply writes_st | apply writes_raise].
Qed.

(** C4, as the code has it: a URL that is empty, that [urlparse] refuses,
    or that lacks a scheme or a host is turned away with one message, and
    nothing else happens: no request, no extraction.  The scheme only has
    to be present. *)
Theorem validation_needs_scheme_and_host
    (extraction_choice : Choice) (url : string) :
  ¬ passes_validation url →
  ∃ o w,
    writes (scrape extraction_choice url) o [Render Main w]
    ∧ ((url = "" ∧ o = Return tt ∧ w = Warning "Please enter a URL")
       ∨ (o = Raise StopException
          ∧ (w = Error "Invalid URL format"
             ∨ w = Error "Invalid URL format. Please include http:// or https://"))).
Proof.
  intros Hno. unfold scrape.
  destruct url as [|c url']; simpl.
  { exists (Return tt), (Warning "Please enter a URL").
    split; [apply writes_st | by left]. }
  set (url := String c url') in *.
  destruct (urlparse url) as [r|] eqn:Hr.
  - exists (Raise StopException),
      (Error "Invalid URL format. Please include http:// or https://").
    split; [|right; split; [done | by right]].
    apply writes_bind_raise, (writes_validate_incomplete url r Hr).
    destruct (decide (scheme r = "")) as [?|Hs]; [by left|].
    destruct (decide (netloc r = "")) as [?|Hn]; [by right|].
    exfalso. apply Hno. split; [done|]. by exists r.
  - exists (Raise StopException), (Error "Invalid URL format").
    split; [|right; split; [done | by left]].
    by apply writes_bind_raise, writes_validate_unparsable.
Qed.

Lemma writes_fetch_failure (url reason : string) :
  fetch_failure url = Some reason →
  writes (fetch url) (Raise StopException)
    [Render Main (Spinner ("Fetching data from " +:+ url +:+ "..."));
     Request url;
     Render Main (Error ("Error fetching the website: " +:+ reason))].
Proof.
  intros Hf. unfold fetch.
  apply (writes_bind _ _ tt [_] _ [_; _]); [apply writes_st|].
  apply (writes_try_caught _ _ (RequestException reason)
           (st Main (Error ("Error fetching the website: " +:+ reason));; st_stop)
           [Request url] _ [_]); [|done|].
  - unfold fetch_failure in Hf.
    destruct (requests_get url headers 10) as [response|msg|name] eqn:Hget;
      [| |done].
    + apply (writes_bind _ _ response [_] _ []).
      * intros tr. unfold get. by rewrite Hget.
      * apply writes_bind_raise. unfold raise_for_status_. rewrite Hf.
        apply writes_raise.
    + injection Hf as ->. apply writes_bind_raise.
      intros tr. unfold get. by rewrite Hget.
  - apply (writes_bind _ _ tt [_] _ []); [apply writes_st | apply writes_raise].
Qed.

Lemma writes_fetch_success (url : string) (response : Response) :
  requests_get url headers 10 = Responded response →
  raise_for_status response = None →
  writes (fetch url) (Return (text response))
    [Render Main (Spinner ("Fetching data from " +:+ url +:+ "..."));
     Request url].
Proof.
  intros Hget Hok. unfold fetch.
  apply (writes_bind _ _ tt [_] _ [_]); [apply writes_st|].
  apply writes_try.
  apply (writes_bind _ _ response [_] _ []).
  - intros tr. unfold get. by rewrite Hget.
  - apply (writes_bind _ _ tt [] _ []); [|apply writes_ret].
    unfold raise_for_status_. rewrite Hok. apply writes_ret.
Qed.

Lemma writes_fetch_escaped (url name : string) :
  requests_get url headers 10 = Escaped name →
  writes (fetch url) (Raise (OtherError name))
    [Render Main (Spinner ("Fetching data from " +:+ url +:+ "..."));
     Request url].
Proof.
  intros Hget. unfold fetch.
  apply (writes_bind _ _ tt [_] _ [_]); [apply writes_st|].
  apply writes_try_uncaught; [|done].
  apply writes_bind_raise. intros tr. unfold get. by rewrite Hget.
Qed.

(** C8, as the code has it: when the fetch of a validated URL fails,
    because [requests.get] raises a [RequestException] or because the
    status is one [raise_for_status] raises on (400 to 599), the run stops
    with the error message that carries the reason; the trace ends there,
    so nothing of the extraction has run. *)
Theorem fetch_failure_stops_before_extraction
    (extraction_choice : Choice) (url reason : string) :
  passes_validation url →
  fetch_failure url = Some reason →
  writes (scrape extraction_choice url) (Raise StopException)
    [Render Main (Spinner ("Fetching data from " +:+ url +:+ "..."));
     Request url;
     Render Main (Error ("Error fetching the website: " +:+ reason))].
Proof.
  intros (Hne & r & Hr & Hs & Hn) Hf. unfold scrape.
  apply truthy_nonempty, Is_true_true in Hne. rewrite Hne. simpl.
  apply (writes_bind _ _ tt [] _ [_; _; _]);
    [by apply (writes_validate_pass url r)|].
  by apply writes_bind_raise, writes_fetch_failure.
Qed.

(** A URL that passes validation is requested. *)
Lemma validated_url_is_requested (extraction_choice : Choice) (url : string) :
  passes_validation url →
  ∃ o out,
    writes (scrape extraction_choice url) o
      (Render Main (Spinner ("Fetching data from " +:+ url +:+ "..."))
         :: Request url :: out).
Proof.
  intros Hpass.
  destruct Hpass as (Hne & r & Hr & Hs & Hn). unfold scrape.
  apply truthy_nonempty, Is_true_true in Hne. rewrite Hne. simpl.
  destruct (fetch_failure url) as [reason|] eqn:Hf.
  { exists (Raise StopException),
      [Render Main (Error ("Error fetching the website: " +:+ reason))].
    apply (writes_bind _ _ tt [] _ [_; _; _]);
      [by apply (writes_validate_pass url r)|].
    by apply writes_bind_raise, writes_fetch_failure. }
  unfold fetch_failure in Hf.
  destruct (requests_get url headers 10) as [response|msg|name] eqn:Hget;
    [|done|].
  - destruct (draws_only_extract extraction_choice url (text response))
      as (o & out & Hw & _).
    exists o, out.
    apply (writes_bind _ _ tt [] _ (_ :: _ :: out));
      [by apply (writes_validate_pass url r)|].
    apply (writes_bind _ _ (text response) [_; _] _ out); [|done].
    by apply writes_fetch_success.
  - exists (Raise (OtherError name)), [].
    apply (writes_bind _ _ tt [] _ [_; _]);
      [by apply (writes_validate_pass url r)|].
    by apply writes_bind_raise, writes_fetch_escaped.
Qed.

End GateProperties.

(** ** The test for an absolute address *)

Section AbsoluteTest.

(** C10: in both branches the test is the prefix test
    [startswith("http")] and nothing else.  A value with that prefix is
    kept as it is: an image source is drawn unchanged, a link goes down
    the classification path with its [href] unchanged.  Any other value is
    not absolute: an image source is resolved against the source URL, a
    link is skipped.  So [httpfoo/bar] counts as absolute and
    [ftp://ex.com/a.png] does not. *)
Theorem absolute_means_http_prefix (url : string) (u : ParseResult) (s : string) :
  urlparse url = Some u →
  (if startswith s "http"
   then
     resolve_src url s = Return s
     ∧ ∀ link rest external_links internal_links,
         attrs link !! "href" = Some s →
         links_loop url (link :: rest) external_links internal_links
         = match urlparse s with
           | None => Raise ValueError
           | Some a =>
               if decide (netloc a = netloc u)
               then links_loop url rest external_links
                      (internal_links
                         ++ [link_record s (strip (get_text link)) "Internal"])
               else links_loop url rest
                      (external_links
                         ++ [link_record s (strip (get_text link)) "External"])
                      internal_links
           end
   else
     resolve_src url s
     = Return (if startswith s "/"
               then scheme u +:+ "://" +:+ netloc u +:+ s
               else url +:+ "/" +:+ (if endswith url "/" then "" else "/") +:+ s)
     ∧ ∀ link rest external_links internal_links,
         attrs link !! "href" = Some s →
         links_loop url (link :: rest) external_links internal_links
         = links_loop url rest external_links internal_links)
  ∧ startswith "httpfoo/bar" "http" = true
  ∧ startswith "ftp://ex.com/a.png" "http" = false.
Proof.
  intros Hu. split; [|by split].
  pose proof (resolve_src_resolved url u s Hu) as Hres. unfold resolved in Hres.
  destruct (startswith s "http") eqn:Hs; (split; [done|]);
    intros link rest external_links internal_links Hh; simpl;
    unfold tag_getitem; rewrite Hh; simpl; rewrite Hs; [|done].
  unfold urlparse_. destruct (urlparse s) as [a|]; simpl; [|done].
  by rewrite Hu.
Qed.

End AbsoluteTest.

(** ** Trimming and truncation *)

Section TextProperties.

Lemma length_append (a b : string) :
  String.length (a +:+ b) = (String.length a + String.length b)%nat.
Proof. induction a as [|c a IH]; simpl; [done | by rewrite IH]. Qed.

Lemma length_slice_to (n : nat) (s : string) :
  String.length (slice_to n s) = (n `min` String.length s)%nat.
Proof.
  revert s. induction n as [|n IH]; intros [|c s]; simpl; try done.
  by rewrite IH.
Qed.

Lemma slice_to_prefix (n : nat) (s t : string) :
  (n ≤ String.length s)%nat → slice_to n (s +:+ t) = slice_to n s.
Proof.
  revert s. induction n as [|n IH]; intros [|c s] Hn; simpl in *;
    try done; try lia.
  rewrite IH; [done | lia].
Qed.

Lemma slice_to_all (n : nat) (s : string) :
  (String.length s ≤ n)%nat → slice_to n s = s.
Proof.
  revert s. induction n as [|n IH]; intros [|c s] Hn; simpl in *;
    try done; try lia.
  rewrite IH; [done | lia].
Qed.

Lemma slice_to_idempotent (n : nat) (s : string) :
  slice_to n (slice_to n s) = slice_to n s.
Proof. apply slice_to_all. rewrite length_slice_to. lia. Qed.

(** The shape of [s[:n] + "..." if len(s) > n else s]. *)
Lemma with_ellipsis_shape (n : nat) (s : string) :
  (String.length (with_ellipsis n s) ≤ n + 3)%nat
  ∧ slice_to n (with_ellipsis n s) = slice_to n s
  ∧ ((String.length s ≤ n)%nat → with_ellipsis n s = s)
  ∧ ((n < String.length s)%nat
     → with_ellipsis n s = slice_to n s +:+ "..."
       ∧ String.length (with_ellipsis n s) = (n + 3)%nat).
Proof.
  unfold with_ellipsis. destruct (Nat.ltb_spec n (String.length s)) as [Hlt|Hge].
  - split_and!.
    + rewrite length_append, length_slice_to. simpl. lia.
    + rewrite slice_to_prefix; [apply slice_to_idempotent|].
      rewrite length_slice_to. lia.
    + lia.
    + intros _. split; [done|].
      rewrite length_append, length_slice_to. simpl. lia.
  - split_and!; [lia | done | done | lia].
Qed.

(** X1: the caption of an image keeps the first 50 characters of the
    alternative text and is never longer than 53: a text of at most 50
    characters is its own caption, a longer one is cut to its first 50
    characters followed by three dots, 53 characters in all. *)
Theorem caption_keeps_first_fifty (alt : string) :
  (String.length (caption alt) ≤ 53)%nat
  ∧ slice_to 50 (caption alt) = slice_to 50 alt
  ∧ (if (50 <? String.length alt)%nat
     then caption alt = slice_to 50 alt +:+ "..."
          ∧ String.length (caption alt) = 53%nat
     else caption alt = alt).
Proof.
  destruct (with_ellipsis_shape 50 alt) as (Hlen & Hpre & Hshort & Hlong).
  split_and!; [exact Hlen | exact Hpre |].
  destruct (Nat.ltb_spec 50 (String.length alt)) as [Hlt|Hge].
  - by apply Hlong.
  - by apply Hshort.
Qed.

Lemma lstrip_empty (s : string) : lstrip s = "" ↔ all_space s.
Proof.
  induction s as [|c s IH]; simpl; [done|].
  destruct (isspace c); simpl; [done|]. split; [done | intros []].
Qed.

Lemma rstrip_empty (s : string) : rstrip s = "" ↔ all_space s.
Proof.
  induction s as [|c s IH]; simpl; [done|].
  destruct (rstrip s) as [|d r] eqn:Hr.
  - destruct (isspace c); simpl; [done|]. split; [done | intros []].
  - split; [done|]. intros [_ Hs]%andb_True.
    apply IH in Hs. done.
Qed.

Lemma all_space_lstrip (s : string) : all_space (lstrip s) ↔ all_space s.
Proof.
  induction s as [|c s IH]; simpl; [done|].
  destruct (isspace c) eqn:Hc; simpl; [done|]. by rewrite Hc.
Qed.

(** [strip] gives the empty string exactly on whitespace. *)
Lemma strip_empty (s : string) : strip s = "" ↔ all_space s.
Proof. unfold strip. by rewrite rstrip_empty, all_space_lstrip. Qed.

Lemma rstrip_last_char (s : string) (c : ascii) :
  last_char (rstrip s) = Some c → isspace c = false.
Proof.
  induction s as [|a s IH]; simpl; [done|].
  destruct (rstrip s) as [|d r] eqn:Hr.
  - destruct (isspace a) eqn:Ha; simpl; [done|]. by intros [= <-].
  - intros Hl. apply IH. exact Hl.
Qed.

Lemma strip_first_char (s : string) (c : ascii) :
  first_char (strip s) = Some c → isspace c = false.
Proof.
  pose proof (rstrip_head_nonspace _ (lstrip_head_nonspace s)) as Hh.
  unfold strip. destruct (rstrip (lstrip s)); simpl in *; [done|].
  by intros [= <-].
Qed.

(** X2: a [p] element is listed exactly when its text has a character
    that is not whitespace, and a listed text neither starts nor ends with
    whitespace. *)
Theorem paragraphs_drop_blank_keep_trimmed (soup : Tag) :
  paragraphs soup
  = (λ p, strip (get_text p))
      <$> filter (λ p, ¬ all_space (get_text p)) (find_all "p" soup)
  ∧ Forall (λ e, (∃ c, first_char e = Some c ∧ isspace c = false)
                 ∧ (∃ c, last_char e = Some c ∧ isspace c = false))
      (paragraphs soup).
Proof.
  assert (paragraphs soup
          = (λ p, strip (get_text p))
              <$> filter (λ p, ¬ all_space (get_text p)) (find_all "p" soup))
    as Heq.
  { unfold paragraphs. f_equal. apply list_filter_iff. intros p.
    rewrite truthy_nonempty, <- strip_empty. done. }
  split; [exact Heq|].
  rewrite Heq. apply Forall_forall. intros e He.
  apply list_elem_of_fmap in He as (p & -> & Hp).
  apply list_elem_of_filter in Hp as [Hp _].
  rewrite <- strip_empty in Hp.
  split.
  - destruct (first_char (strip (get_text p))) as [c|] eqn:Hc.
    + exists c. split; [done | by apply (strip_first_char (get_text p))].
    + destruct (strip (get_text p)); done.
  - destruct (last_char (strip (get_text p))) as [c|] eqn:Hc.
    + exists c. split; [done|]. by apply (rstrip_last_char (lstrip (get_text p))).
    + exfalso. apply Hp. clear Hp.
      induction (strip (get_text p)) as [|a r IH]; [done|].
      simpl in Hc. destruct r; [done | by specialize (IH Hc)].
Qed.

End TextProperties.

(** ** More on the Links branch *)

Section LinksLoopProperties.

Lemma link_record_bucket (h text type : string) :
  startswith h "http" →
  bucket_record type (link_record h (strip text) type).
Proof.
  intros Hs. unfold bucket_record, link_record. split_and!.
  - by simplify_map_eq.
  - rewrite !dom_insert_L, dom_singleton_L. set_solver.
  - exists h, (strip text). split_and!;
      [by simplify_map_eq | by simplify_map_eq | done | apply strip_idempotent].
Qed.

(** X3: the loop only appends to its two lists.  When it ends normally,
    every record it appended has the three keys [URL], [Text], [Type] and
    no other, the type of its bucket, an address with the absolute marker
    and a trimmed text; and the numbers appended to the two lists add up
    to the number of anchors with an absolute [href]: each of them is
    counted once. *)
Theorem links_loop_appends_records (url : string) (links : list Tag)
    (external_links internal_links external_links' internal_links'
       : list (gmap string string)) :
  links_loop url links external_links internal_links
  = Return (external_links', internal_links') →
  ∃ new_external new_internal,
    external_links' = (external_links ++ new_external)%list
    ∧ internal_links' = (internal_links ++ new_internal)%list
    ∧ Forall (bucket_record "External") new_external
    ∧ Forall (bucket_record "Internal") new_internal
    ∧ (length new_external + length new_internal)%nat
      = length (filter (λ link, startswith (href link) "http") links).
Proof.
  revert external_links internal_links.
  induction links as [|link links IH]; intros external_links internal_links;
    simpl.
  { intros [= <- <-]. exists [], []. by rewrite !app_nil_r. }
  unfold tag_getitem. destruct (attrs link !! "href") as [h|] eqn:Hh; [|done].
  simpl. rewrite filter_cons.
  assert (href link = h) as -> by (unfold href, Bs4.get; by rewrite Hh).
  destruct (startswith h "http") eqn:Hs.
  - rewrite decide_True by done.
    unfold urlparse_.
    destruct (urlparse h) as [a|]; simpl; [|done].
    destruct (urlparse url) as [b|]; simpl; [|done].
    destruct (decide (netloc a = netloc b)); intros Hloop;
      apply IH in Hloop as (ne & ni & -> & -> & Hne & Hni & Hlen).
    + exists ne, (link_record h (strip (get_text link)) "Internal" :: ni).
      rewrite <- app_assoc. split_and!; try done.
      * constructor; [|done]. apply link_record_bucket. by rewrite Hs.
      * simpl. lia.
    + exists (link_record h (strip (get_text link)) "External" :: ne), ni.
      rewrite <- app_assoc. split_and!; try done.
      * constructor; [|done]. apply link_record_bucket. by rewrite Hs.
      * simpl. lia.
  - rewrite decide_False by (intros Hc; exact Hc). apply IH.
Qed.

Lemma links_loop_relative (url : string) (links : list Tag)
    (external_links internal_links : list (gmap string string)) :
  Forall (λ link, is_Some (attrs link !! "href")) links →
  Forall (λ link, ¬ startswith (href link) "http") links →
  links_loop url links external_links internal_links
  = Return (external_links, internal_links).
Proof.
  intros Hattr. revert external_links internal_links.
  induction Hattr as [|link links [h Hh] _ IH];
    intros external_links internal_links Hrel; simpl; [done|].
  apply Forall_cons in Hrel as [Hlink Hrel].
  unfold tag_getitem. rewrite Hh. simpl.
  assert (href link = h) as Hhref by (unfold href, Bs4.get; by rewrite Hh).
  rewrite Hhref in Hlink.
  destruct (startswith h "http"); [by destruct Hlink | by apply IH].
Qed.

(** X4: a page whose anchors all have a relative [href] is not reported
    as a page without links: the branch reports zero external and zero
    internal links and fills both tabs with their notice.  [urlparse] is
    not called, so this holds whatever it would answer. *)
Theorem links_all_relative_reports_zero (url : string) (soup : Tag) :
  let links := find_all_with "a" "href" soup in
  links ≠ [] →
  Forall (λ link, ¬ startswith (href link) "http") links →
  writes (links_branch url soup) (Return tt)
    [Render Container
       (Markdown "Found 0 external links and 0 internal links" false);
     Render (Tab "External Links") (Info "No external links found");
     Render (Tab "Internal Links") (Info "No internal links found")].
Proof.
  intros links Hne Hrel. unfold links_branch. fold links.
  rewrite bool_decide_eq_true_2 by done.
  rewrite (links_loop_relative url links [] []); [| |done].
  - apply (writes_bind _ _ ([], []) [] _ [_; _; _]); [apply writes_lift|].
    apply (writes_bind _ _ tt [_] _ [_; _]); [apply writes_st|].
    apply (writes_bind _ _ tt [_] _ [_]); apply writes_st.
  - apply Forall_forall. intros link Hl.
    by apply list_elem_of_filter in Hl as [[_ ?] _].
Qed.

Lemma links_loop_unparsable (url : string) (links : list Tag)
    (external_links internal_links : list (gmap string string)) :
  Forall (λ link, is_Some (attrs link !! "href")) links →
  Exists (λ link, startswith (href link) "http" ∧ urlparse (href link) = None)
    links →
  links_loop url links external_links internal_links = Raise ValueError.
Proof.
  intros Hattr. revert external_links internal_links.
  induction Hattr as [|link links [h Hh] _ IH];
    intros external_links internal_links Hbad; [by apply Exists_nil in Hbad|].
  simpl. unfold tag_getitem. rewrite Hh. simpl.
  assert (href link = h) as Hhref by (unfold href, Bs4.get; by rewrite Hh).
  apply Exists_cons in Hbad. rewrite Hhref in Hbad.
  destruct (startswith h "http") eqn:Hs.
  - unfold urlparse_. destruct (urlparse h) as [a|] eqn:Ha; simpl; [|done].
    destruct (urlparse url) as [b|]; simpl; [|done].
    destruct Hbad as [[_ ?]|Hbad]; [done|].
    destruct (decide (netloc a = netloc b)); by apply IH.
  - destruct Hbad as [[[] _]|Hbad]. by apply IH.
Qed.

(** X5: one anchor with an absolute [href] that [urlparse] refuses is
    enough to lose the whole Links view: the branch ends in the
    [ValueError], which nothing handles, and draws nothing, not even the
    links collected before that anchor. *)
Theorem links_unparsable_href_draws_nothing (url : string) (soup : Tag) :
  Exists (λ link, startswith (href link) "http" ∧ urlparse (href link) = None)
    (find_all_with "a" "href" soup) →
  writes (links_branch url soup) (Raise ValueError) [].
Proof.
  intros Hbad. unfold links_branch.
  rewrite bool_decide_eq_true_2
    by (intros Hnil; rewrite Hnil in Hbad; by apply Exists_nil in Hbad).
  rewrite links_loop_unparsable; [| |done].
  - apply writes_bind_raise, writes_lift.
  - apply Forall_forall. intros link Hl.
    by apply list_elem_of_filter in Hl as [[_ ?] _].
Qed.

End LinksLoopProperties.

(** ** Whole runs of the handler *)

Section RunProperties.

Lemma ends_in_ret {A} (Q : Outcome A → Prop) (a : A) :
  Q (Return a) → ends_in Q (mret a).
Proof. intros HQ. exists (Return a), []. by split; [apply writes_ret|]. Qed.

Lemma ends_in_st (Q : Outcome unit → Prop) (p : Place) (w : Widget) :
  Q (Return tt) → ends_in Q (st p w).
Proof.
  intros HQ. exists (Return tt), [Render p w].
  split; [apply writes_st|]. split; [by repeat constructor | done].
Qed.

Lemma ends_in_lift {A} (Q : Outcome A → Prop) (o : Outcome A) :
  Q o → ends_in Q (lift o).
Proof. intros HQ. exists o, []. by split; [apply writes_lift|]. Qed.

Lemma ends_in_bind {A B} (Q1 : Outcome A → Prop) (Q2 : Outcome B → Prop)
    (m : M A) (f : A → M B) :
  ends_in Q1 m →
  (∀ a, Q1 (Return a) → ends_in Q2 (f a)) →
  (∀ e, Q1 (Raise e) → Q2 (Raise e)) →
  ends_in Q2 (m ≫= f).
Proof.
  intros ([a|e] & out1 & Hm & Hout1 & HQ1) Hf He.
  - destruct (Hf a HQ1) as (o & out2 & Hfa & Hout2 & HQ2).
    exists o, (out1 ++ out2)%list. split_and!; [|by apply Forall_app|done].
    by apply (writes_bind _ _ a).
  - exists (Raise e), out1. split_and!; [by apply writes_bind_raise|done|auto].
Qed.

Lemma ends_in_for_each {A} (Q : Outcome unit → Prop) (l : list A)
    (body : A → M unit) :
  Q (Return tt) → Forall (λ x, ends_in Q (body x)) l →
  ends_in Q (for_each l body).
Proof.
  intros HQ. induction 1 as [|x l Hx _ IH]; simpl.
  - by apply ends_in_ret.
  - apply (ends_in_bind Q Q); [done | by intros [] _ | done].
Qed.

Lemma ends_in_weaken {A} (Q1 Q2 : Outcome A → Prop) (m : M A) :
  (∀ o, Q1 o → Q2 o) → ends_in Q1 m → ends_in Q2 m.
Proof. intros HQ (o & out & ? & ? & ?). exists o, out. auto. Qed.

Lemma returns_paragraphs (soup : Tag) :
  ends_in (λ o, o = Return tt) (paragraphs_branch soup).
Proof.
  unfold paragraphs_branch. case_bool_decide; [|by apply ends_in_st].
  eapply ends_in_bind; [by apply (ends_in_st (λ o, o = Return tt))| |done].
  intros _ _. apply ends_in_for_each; [done|].
  apply Forall_forall. intros [i para] _.
  eapply ends_in_bind; [by apply (ends_in_st (λ o, o = Return tt))| |done].
  intros _ _. by apply ends_in_st.
Qed.

Lemma returns_headings (soup : Tag) :
  ends_in (λ o, o = Return tt) (headings_branch soup).
Proof.
  unfold headings_branch. case_bool_decide; [|by apply ends_in_st].
  eapply ends_in_bind; [by apply (ends_in_st (λ o, o = Return tt))| |done].
  intros _ _. apply ends_in_for_each; [done|].
  apply Forall_forall. intros heading Hin.
  apply list_elem_of_filter in Hin as [Hname _].
  destruct (heading_level_of_name heading Hname) as (level & _ & _ & ->).
  eapply ends_in_bind;
    [by apply (ends_in_lift (λ o, o = Return level))| |by intros e [=]].
  intros a _. by apply ends_in_st.
Qed.

Lemma returns_tables (soup : Tag) :
  ends_in (λ o, o = Return tt) (tables_branch soup).
Proof.
  unfold tables_branch. case_bool_decide; [|by apply ends_in_st].
  eapply ends_in_bind; [by apply (ends_in_st (λ o, o = Return tt))| |done].
  intros _ _. apply ends_in_for_each; [done|].
  apply Forall_forall. intros [i table] _.
  exists (Return tt), (table_slot (i, table)).
  split; [apply writes_table_slot|]. split; [by repeat constructor | done].
Qed.

Lemma returns_images (url : string) (u : ParseResult) (soup : Tag) :
  urlparse url = Some u →
  ends_in (λ o, o = Return tt) (images_branch url soup).
Proof.
  intros Hu. unfold images_branch. case_bool_decide; [|by apply ends_in_st].
  eapply ends_in_bind; [by apply (ends_in_st (λ o, o = Return tt))| |done].
  intros _ _. apply ends_in_for_each; [done|].
  apply Forall_forall. intros [i img] _.
  destruct (truthy (Bs4.get img "src" "")); [|by apply ends_in_ret].
  rewrite (resolve_src_resolved url u) by done.
  eapply ends_in_bind;
    [by apply (ends_in_lift (λ o, ∃ a, o = Return a)); eexists| |by intros e [? [=]]].
  intros a _. by apply ends_in_st.
Qed.

Lemma links_loop_outcome (url : string) (links : list Tag)
    (external_links internal_links : list (gmap string string)) :
  Forall (λ link, is_Some (attrs link !! "href")) links →
  (∃ buckets,
      links_loop url links external_links internal_links = Return buckets)
  ∨ links_loop url links external_links internal_links = Raise ValueError.
Proof.
  intros Hattr. revert external_links internal_links.
  induction Hattr as [|link links [h Hh] _ IH];
    intros external_links internal_links; simpl; [by left; eexists|].
  unfold tag_getitem. rewrite Hh. simpl.
  destruct (startswith h "http"); [|apply IH].
  unfold urlparse_. destruct (urlparse h) as [a|]; simpl; [|by right].
  destruct (urlparse url) as [b|]; simpl; [|by right].
  destruct (decide (netloc a = netloc b)); apply IH.
Qed.

Lemma ends_links (url : string) (soup : Tag) :
  ends_in (branch_outcome Links) (links_branch url soup).
Proof.
  unfold links_branch. case_bool_decide; [|apply ends_in_st; by left].
  destruct (links_loop_outcome url (find_all_with "a" "href" soup) [] [])
    as [[[external_links internal_links] ->] | ->].
  - apply Forall_forall. intros link Hl.
    by apply list_elem_of_filter in Hl as [[_ ?] _].
  - eapply ends_in_bind;
      [by apply (ends_in_lift (λ o, ∃ a, o = Return a)); eexists
      | |by intros e [? [=]]].
    intros [e i] _.
    eapply ends_in_bind;
      [by apply (ends_in_st (λ o, o = Return tt))| |done].
    intros _ _.
    eapply ends_in_bind with (Q1 := λ o, o = Return tt); [| |done].
    + case_bool_decide; by apply ends_in_st.
    + intros _ _. case_bool_decide; apply ends_in_st; by left.
  - exists (Raise ValueError), [].
    split; [apply writes_bind_raise, writes_lift|]. split; [done | by right].
Qed.

(** Every extraction opens with the preamble and goes on with its branch,
    which only draws and ends in one of its outcomes. *)
Lemma extract_shape (extraction_choice : Choice) (url html : string)
    (u : ParseResult) :
  urlparse url = Some u →
  ∃ o out,
    writes (extract extraction_choice url html) o
      (preamble extraction_choice url html ++ out)
    ∧ Forall is_render out ∧ branch_outcome extraction_choice o.
Proof.
  intros Hu.
  assert (∀ m : M unit, ends_in (branch_outcome extraction_choice) m →
            ∃ o out,
              writes (st Main (Success "Successfully fetched website content!");;
                      st Main (Markdown ("### Extracted "
                                         +:+ lower (choice_label extraction_choice)
                                         +:+ " from " +:+ url) false);;
                      st (Expander "View Raw HTML (Advanced)")
                        (Code (with_ellipsis 2000 html));;
                      m) o (preamble extraction_choice url html ++ out)
              ∧ Forall is_render out ∧ branch_outcome extraction_choice o)
    as Hpre.
  { intros m (o & out & Hw & Hr & HQ). exists o, out. split; [|done].
    apply (writes_bind _ _ tt [_] _ (_ :: _ :: out)); [apply writes_st|].
    apply (writes_bind _ _ tt [_] _ (_ :: out)); [apply writes_st|].
    apply (writes_bind _ _ tt [_] _ out); [apply writes_st | done]. }
  unfold extract. apply Hpre.
  destruct extraction_choice.
  - eapply ends_in_weaken; [|apply returns_paragraphs]. by left.
  - eapply ends_in_weaken; [|apply returns_headings]. by left.
  - apply ends_links.
  - eapply ends_in_weaken; [|apply returns_tables]. by left.
  - eapply ends_in_weaken; [|by apply (returns_images url u)]. by left.
Qed.

(** The five shapes of a run of the handler. *)
Lemma scrape_shape (extraction_choice : Choice) (url : string) :
  (url = ""
   ∧ writes (scrape extraction_choice url) (Return tt)
       [Render Main (Warning "Please enter a URL")])
  ∨ (url ≠ "" ∧ ¬ passes_validation url
     ∧ ∃ msg, writes (scrape extraction_choice url) (Raise StopException)
                [Render Main (Error msg)])
  ∨ (passes_validation url
     ∧ ∃ reason,
         fetch_failure url = Some reason
         ∧ writes (scrape extraction_choice url) (Raise StopException)
             [Render Main (Spinner ("Fetching data from " +:+ url +:+ "..."));
              Request url;
              Render Main (Error ("Error fetching the website: " +:+ reason))])
  ∨ (passes_validation url
     ∧ ∃ response o out,
         requests_get url headers 10 = Responded response
         ∧ raise_for_status response = None
         ∧ writes (scrape extraction_choice url) o
             (Render Main (Spinner ("Fetching data from " +:+ url +:+ "..."))
                :: Request url
                :: preamble extraction_choice url (text response) ++ out)
         ∧ Forall is_render out
         ∧ branch_outcome extraction_choice o)
  ∨ (passes_validation url
     ∧ ∃ name,
         requests_get url headers 10 = Escaped name
         ∧ writes (scrape extraction_choice url) (Raise (OtherError name))
             [Render Main (Spinner ("Fetching data from " +:+ url +:+ "..."));
              Request url]).
Proof.
  destruct (decide (url = "")) as [->|Hne].
  { left. split; [done|]. unfold scrape. simpl. apply writes_st. }
  right.
  assert (negb (truthy url) = false) as Htruthy.
  { apply truthy_nonempty, Is_true_true in Hne. by rewrite Hne. }
  unfold scrape. rewrite Htruthy.
  destruct (urlparse url) as [r|] eqn:Hr.
  2:{ left. split; [done|]. split.
      - intros (_ & r & Hr' & _). congruence.
      - eexists. by apply writes_bind_raise, writes_validate_unparsable. }
  destruct (decide (scheme r = "")) as [Hs|Hs].
  { left. split; [done|]. split.
    - intros (_ & r' & Hr' & Hs' & _). congruence.
    - eexists. apply writes_bind_raise, (writes_validate_incomplete url r Hr).
      by left. }
  destruct (decide (netloc r = "")) as [Hn|Hn].
  { left. split; [done|]. split.
    - intros (_ & r' & Hr' & _ & Hn'). congruence.
    - eexists. apply writes_bind_raise, (writes_validate_incomplete url r Hr).
      by right. }
  right.
  assert (passes_validation url) as Hpass by (split; [done | by exists r]).
  destruct (fetch_failure url) as [reason|] eqn:Hf.
  { left. split; [done|]. exists reason. split; [done|].
    apply (writes_bind _ _ tt [] _ [_; _; _]);
      [by apply (writes_validate_pass url r)|].
    by apply writes_bind_raise, writes_fetch_failure. }
  right. unfold fetch_failure in Hf.
  destruct (requests_get url headers 10) as [response|msg|name] eqn:Hget;
    [|done|].
  - left. split; [done|].
    destruct (extract_shape extraction_choice url (text response) r Hr)
      as (o & out & Hw & Hout & Ho).
    exists response, o, out. split_and!; try done.
    apply (writes_bind _ _ tt [] _ (_ :: _ :: _));
      [by apply (writes_validate_pass url r)|].
    apply (writes_bind _ _ (text response) [_; _] _ _); [|done].
    by apply writes_fetch_success.
  - right. split; [done|]. exists name. split; [done|].
    apply (writes_bind _ _ tt [] _ [_; _]);
      [by apply (writes_validate_pass url r)|].
    by apply writes_bind_raise, writes_fetch_escaped.
Qed.

Lemma status_accepted (response : Response) :
  raise_for_status response = None
  ↔ (status_code response < 400 ∨ 600 ≤ status_code response)%nat.
Proof.
  unfold raise_for_status.
  destruct (Nat.leb_spec 400 (status_code response));
    destruct (Nat.ltb_spec (status_code response) 500);
    destruct (Nat.leb_spec 500 (status_code response));
    destruct (Nat.ltb_spec (status_code response) 600);
    simpl; split; try done; try lia; intros [?|?]; lia.
Qed.

(** X7: after validation, a response whose status is outside 400..599
    counts as fetched, whatever the status is: the run draws the spinner,
    makes its one request, and then is the extraction of the text of the
    response, to the last element and the outcome. *)
Theorem fetched_text_is_extracted
    (extraction_choice : Choice) (url : string) (response : Response) :
  passes_validation url →
  requests_get url headers 10 = Responded response →
  (status_code response < 400 ∨ 600 ≤ status_code response)%nat →
  ∃ o out,
    writes (extract extraction_choice url (text response)) o out
    ∧ writes (scrape extraction_choice url) o
        (Render Main (Spinner ("Fetching data from " +:+ url +:+ "..."))
           :: Request url :: out).
Proof.
  intros (Hne & r & Hr & Hs & Hn) Hget Hstatus.
  apply status_accepted in Hstatus.
  destruct (draws_only_extract extraction_choice url (text response))
    as (o & out & Hw & _).
  exists o, out. split; [done|].
  unfold scrape. apply truthy_nonempty, Is_true_true in Hne. rewrite Hne. simpl.
  apply (writes_bind _ _ tt [] _ (_ :: _ :: out));
    [by apply (writes_validate_pass url r)|].
  apply (writes_bind _ _ (text response) [_; _] _ out); [|done].
  by apply writes_fetch_success.
Qed.


End RunProperties.

(** ** Runs of the whole script *)

Section PageProperties.

Lemma requests_of_renders (out : list Event) :
  Forall is_render out → requests_of out = [].
Proof.
  induction 1 as [|e out He _ IH]; [done|].
  destruct e; [done|]. exact IH.
Qed.

Lemma page_requests_drawn (l : list Chrome) : page_requests (Drawn <$> l) = [].
Proof. induction l as [|c l IH]; [done | exact IH]. Qed.

Lemma page_requests_handled (tr : list Event) :
  page_requests (Handled <$> tr) = requests_of tr.
Proof.
  induction tr as [|e tr IH]; [done|].
  destruct e; simpl; by rewrite <- IH.
Qed.

(** The run of the script around a handler that writes [out]. *)
Lemma app_pressed (extraction_choice : Choice) (url : string)
    (o : Outcome unit) (out : list Event) :
  writes (scrape extraction_choice url) o out →
  app extraction_choice url true
  = match o with
    | Return _ =>
        (Return tt,
         ((Drawn <$> page_top) ++ (Handled <$> out) ++ (Drawn <$> page_footer))%list)
    | Raise e => (Raise e, ((Drawn <$> page_top) ++ (Handled <$> out))%list)
    end.
Proof.
  intros Hw. unfold app. rewrite (Hw []). simpl. by destruct o.
Qed.

Lemma last_not_footer (k : list PageEvent) (out : list Event) :
  out ≠ [] →
  ¬ (Drawn <$> page_footer) `suffix_of` (k ++ (Handled <$> out))%list.
Proof.
  intros Hout [k' Heq].
  apply last_is_Some in Hout as [e He].
  apply last_Some in He as [out' ->].
  apply (f_equal last) in Heq.
  rewrite fmap_snoc, app_assoc, last_snoc in Heq.
  change (Drawn <$> page_footer) with ([Drawn (PageMarkdown "---" false)]
    ++ [Drawn (PageMarkdown ("<div class=" +:+ dquote +:+ "footer" +:+ dquote
                 +:+ ">Web Scraper App - Use responsibly and respect website terms of service</div>")
              true)])%list in Heq.
  by rewrite app_assoc, last_snoc in Heq.
Qed.

(** X9: the script makes a request exactly when the button is pressed on
    a URL that passes validation, and then one request, to that URL.
    Drawing the page, a rejected URL, and the extraction itself request
    nothing. *)
Theorem one_request_when_pressed_and_valid
    (extraction_choice : Choice) (url : string) (pressed : bool) :
  (pressed = true ∧ passes_validation url
   → page_requests (app extraction_choice url pressed).2 = [url])
  ∧ (¬ (pressed = true ∧ passes_validation url)
     → page_requests (app extraction_choice url pressed).2 = []).
Proof.
  destruct pressed.
  2:{ split; [by intros [[=] _]|]. intros _. unfold app. cbn [snd].
      unfold page_requests. rewrite omap_app.
      fold page_requests. by rewrite !page_requests_drawn. }
  assert (∀ o out, writes (scrape extraction_choice url) o out →
            page_requests (app extraction_choice url true).2 = requests_of out)
    as Hreq.
  { intros o out Hw. rewrite (app_pressed _ _ o out Hw).
    destruct o; cbn [snd]; unfold page_requests; rewrite !omap_app;
      fold page_requests;
      rewrite !page_requests_drawn, page_requests_handled;
      simpl; by rewrite ?app_nil_r. }
  destruct (scrape_shape extraction_choice url)
    as [[-> Hw] | [(_ & Hno & msg & Hw) | [(Hpass & reason & _ & Hw)
        | [(Hpass & response & o & out & _ & _ & Hw & Hout & _)
          | (Hpass & name & _ & Hw)]]]];
    rewrite (Hreq _ _ Hw).
  - split; [by intros [_ [? _]] | done].
  - split; [by intros [_ ?] | done].
  - split; [done | intros Hc; by destruct Hc].
  - split; [|intros Hc; by destruct Hc]. intros _. simpl.
    by rewrite (requests_of_renders out).
  - split; [done | intros Hc; by destruct Hc].
Qed.

(** X10: the footer is the end of the page exactly when the run returns.
    Without a press, or with an empty URL, which only earns a warning, it
    is drawn.  A URL that is rejected or a fetch that fails stops the
    script: the error message is the last thing on the page and the
    footer is missing. *)
Theorem footer_drawn_iff_run_returns
    (extraction_choice : Choice) (url : string) (pressed : bool) :
  let run := app extraction_choice url pressed in
  ((Drawn <$> page_footer) `suffix_of` run.2 ↔ run.1 = Return tt)
  ∧ (pressed = false ∨ url = "" → run.1 = Return tt)
  ∧ (pressed = true → url ≠ "" →
     ¬ passes_validation url ∨ is_Some (fetch_failure url) →
     run.1 = Raise StopException
     ∧ ∃ msg, last run.2 = Some (Handled (Render Main (Error msg)))).
Proof.
  intros run. subst run. destruct pressed.
  2:{ unfold app. cbn [fst snd]. split_and!; [|done|done].
      split; [done|]. intros _. by apply suffix_app_r. }
  assert (∀ o out, writes (scrape extraction_choice url) o out → out ≠ [] →
            (Drawn <$> page_footer) `suffix_of` (app extraction_choice url true).2
            ↔ (app extraction_choice url true).1 = Return tt) as Hfooter.
  { intros o out Hw Hout. rewrite (app_pressed _ _ o out Hw).
    destruct o as [[]|e]; cbn [fst snd].
    - split; [done|]. intros _. by apply suffix_app_r, suffix_app_r.
    - split; [|done]. intros Hs. by apply last_not_footer in Hs. }
  destruct (scrape_shape extraction_choice url)
    as [[-> Hw] | [(Hne & Hno & msg & Hw) | [(Hpass & reason & Hf & Hw)
        | [(Hpass & response & o & out & Hget & Hok & Hw & _ & _)
          | (Hpass & name & Hget & Hw)]]]].
  - split_and!; [by apply (Hfooter _ _ Hw)| |done].
    intros _. by rewrite (app_pressed _ _ _ _ Hw).
  - split_and!; [by apply (Hfooter _ _ Hw)|by intros [[=]|?]|].
    intros _ _ _. rewrite (app_pressed _ _ _ _ Hw). cbn [fst snd].
    split; [done|]. exists msg.
    change [Render Main (Error msg)] with ([] ++ [Render Main (Error msg)])%list.
    by rewrite fmap_snoc, app_assoc, last_snoc.
  - split_and!; [by apply (Hfooter _ _ Hw)
                |intros [[=]| ->]; by destruct Hpass|].
    intros _ _ _. rewrite (app_pressed _ _ _ _ Hw). cbn [fst snd].
    split; [done|]. eexists.
    change [?a; ?b; ?c] with ([a; b] ++ [c])%list.
    by rewrite fmap_snoc, app_assoc, last_snoc.
  - split_and!; [by apply (Hfooter _ _ Hw)
                |intros [[=]| ->]; by destruct Hpass|].
    intros _ _ [Hno | [reason Hf]]; [done|].
    unfold fetch_failure in Hf. rewrite Hget in Hf. congruence.
  - split_and!; [by apply (Hfooter _ _ Hw)
                |intros [[=]| ->]; by destruct Hpass|].
    intros _ _ [Hno | [reason Hf]]; [done|].
    unfold fetch_failure in Hf. rewrite Hget in Hf. congruence.
Qed.

End PageProperties.

End Script.

(** ** Concrete runs *)

Import Demo.

Example strip_both_ends : strip "  a b	 " = "a b".
Proof. reflexivity. Qed.

Example urlsplit_samples :
  urlparse "https://ex.com/page" = Some (mkParseResult "https" "ex.com")
  ∧ urlparse "notaurl" = Some (mkParseResult "" "")
  ∧ urlparse "ftp://ex.com" = Some (mkParseResult "ftp" "ex.com")
  ∧ urlparse "httpfoo/bar" = Some (mkParseResult "" "")
  ∧ urlparse "http://[" = None.
Proof. by vm_compute. Qed.

Example page_run_headings :
  scrape Headings "https://ex.com/page" []
  = (Return tt,
     [Render Main (Spinner "Fetching data from https://ex.com/page...");
      Request "https://ex.com/page";
      Render Main (Success "Successfully fetched website content!");
      Render Main (Markdown "### Extracted headings from https://ex.com/page" false);
      Render (Expander "View Raw HTML (Advanced)") (Code page_html);
      Render Container (Markdown "#### Headings Structure:" false);
      Render Container (Markdown "## News" false)]).
Proof. by vm_compute. Qed.

Example empty_url_run :
  scrape Images "" [] = (Return tt, [Render Main (Warning "Please enter a URL")]).
Proof. reflexivity. Qed.

Example rooted_src_resolution :
  resolve_src "https://ex.com/page" "/a.png" = Return "https://ex.com/a.png".
Proof. by vm_compute. Qed.

Example bare_relative_image_run :
  images_branch "https://ex.com/page" one_relative_image []
  = (Return tt,
     [Render Container (Markdown "Found 1 images" false);
      Render (Column 0) (Image "https://ex.com/page//b.png" "No alt text")]).
Proof. by vm_compute. Qed.

Example five_tables_three_slots :
  (tables_branch five_tables []).2
  = [Render Container (Markdown "Found 5 tables" false);
     Render Container (Markdown "#### Table 1" false);
     Render Container (Dataframe [["<table>a</table>"]]);
     Render Container (Markdown "---" false);
     Render Container (Markdown "#### Table 2" false);
     Render Container (Warning "Could not parse this table");
     Render Container (Markdown "---" false);
     Render Container (Markdown "#### Table 3" false);
     Render Container (Dataframe [["<table>c</table>"]]);
     Render Container (Markdown "---" false)].
Proof. by vm_compute. Qed.

Example unparsable_href_run :
  links_branch "https://ex.com/page" bad_link [] = (Raise ValueError, []).
Proof. by vm_compute. Qed.

(** The claim of C2 at ten images of which the first has no source: nine
    sources are non-empty, filtering first would keep nine, and eight
    images are drawn. *)
Lemma nine_sources_eight_images :
  length (filter (λ img, truthy (src_of img)) (find_all "img" ten_images)) = 9%nat
  ∧ length (images_filter_then_cap ten_images) = 9%nat
  ∧ length (drawn_images (images_branch "https://ex.com/page" ten_images []).2)
    = 8%nat.
Proof. split_and!; by vm_compute. Qed.

(** The claim of C4 at [ftp://ex.com]: the scheme is neither [http] nor
    [https], yet the URL passes validation and is requested. *)
Lemma ftp_url_passes_validation :
  ¬ recognized "ftp://ex.com"
  ∧ passes_validation "ftp://ex.com"
  ∧ (scrape Paragraphs "ftp://ex.com" []).2
    = [Render Main (Spinner "Fetching data from ftp://ex.com...");
       Request "ftp://ex.com";
       Render Main (Error "Error fetching the website: Connection refused")].
Proof.
  split_and!.
  - intros (r & Hr & Hs & _). vm_compute in Hr. injection Hr as <-.
    by destruct Hs.
  - split; [done|]. exists (mkParseResult "ftp" "ex.com"). by vm_compute.
  - by vm_compute.
Qed.


(** The claim of C8 at a response with status 304: the status is no
    success, yet nothing stops the run and the page is extracted. *)
Lemma not_modified_response_is_extracted :
  @requests_get _ cached_libraries "https://ex.com/page" headers 10
  = Responded (mkResponse 304 "Not Modified" "https://ex.com/page" page_html)
  ∧ @scrape _ cached_libraries Paragraphs "https://ex.com/page" []
    = (Return tt,
       [Render Main (Spinner "Fetching data from https://ex.com/page...");
        Request "https://ex.com/page";
        Render Main (Success "Successfully fetched website content!");
        Render Main
          (Markdown "### Extracted paragraphs from https://ex.com/page" false);
        Render (Expander "View Raw HTML (Advanced)") (Code page_html);
        Render Container (Markdown "#### Paragraphs Found:" false);
        Render Container (Markdown "**Paragraph 1:**" false);
        Render Container
          (Markdown ("<div class=" +:+ dquote +:+ "result-box" +:+ dquote
                     +:+ ">Hello</div>") true)]).
Proof. split; by vm_compute. Qed.

Lemma images_cap_then_skip_empty_witness :
  urlparse "https://ex.com/page" = Some (mkParseResult "https" "ex.com")
  ∧ (length (filter (λ e : nat * Tag, truthy (src_of e.2))
               (enumerate (take 9 (find_all "img" ten_images)))) ≤ 9)%nat.
Proof.
  split; [by vm_compute|].
  apply (images_cap_then_skip_empty "https://ex.com/page"
           (mkParseResult "https" "ex.com") ten_images).
  by vm_compute.
Defined.


Lemma validation_needs_scheme_and_host_witness :
  ¬ passes_validation "notaurl"
  ∧ ∃ w, writes (scrape Paragraphs "notaurl") (Raise StopException)
           [Render Main w].
Proof.
  assert (¬ passes_validation "notaurl") as Hno.
  { intros (_ & r & Hr & Hs & _). vm_compute in Hr. injection Hr as <-.
    by apply Hs. }
  split; [exact Hno|].
  destruct (validation_needs_scheme_and_host Paragraphs "notaurl" Hno)
    as (o & w & Hw & [(Hurl & _) | (-> & _)]).
  - discriminate Hurl.
  - by exists w.
Defined.

Lemma fetch_failure_stops_before_extraction_witness :
  passes_validation "https://ex.com/missing"
  ∧ fetch_failure "https://ex.com/missing"
    = Some "404 Client Error: Not Found for url: https://ex.com/missing"
  ∧ (scrape Tables "https://ex.com/missing" []).1 = Raise StopException.
Proof.
  assert (passes_validation "https://ex.com/missing") as Hpass.
  { split; [done|]. exists (mkParseResult "https" "ex.com"). by vm_compute. }
  split_and!; [exact Hpass | by vm_compute |].
  by rewrite (fetch_failure_stops_before_extraction Tables
                "https://ex.com/missing" _ Hpass eq_refl).
Defined.

Lemma absolute_means_http_prefix_witness :
  urlparse "https://ex.com/page" = Some (mkParseResult "https" "ex.com")
  ∧ resolve_src "https://ex.com/page" "httpfoo/bar" = Return "httpfoo/bar".
Proof.
  split; [by vm_compute|].
  destruct (absolute_means_http_prefix "https://ex.com/page"
              (mkParseResult "https" "ex.com") "httpfoo/bar") as [[Hsrc _] _].
  - by vm_compute.
  - exact Hsrc.
Defined.

Example long_alt_caption :
  caption "An aerial photograph of the harbour at dawn, with fishing boats"
  = "An aerial photograph of the harbour at dawn, with ...".
Proof. reflexivity. Qed.

Example unpressed_page_requests_nothing :
  page_requests (app Links "https://ex.com/page" false).2 = []
  ∧ page_requests (app Links "https://ex.com/page" true).2 = ["https://ex.com/page"]
  ∧ (app Links "notaurl" true).1 = Raise StopException
  ∧ (app Links "" true).1 = Return tt.
Proof. split_and!; by vm_compute. Qed.

Lemma links_loop_appends_records_witness :
  links_loop "https://ex.com/page" (find_all_with "a" "href" some_links) [] []
  = Return
      ([link_record "https://www.ex.com/b" "www" "External";
        link_record "https://EX.com/c" "upper" "External";
        link_record "httpfoo/bar" "odd" "External"],
       [link_record "https://ex.com/a" "same" "Internal"])
  ∧ Forall (bucket_record "External")
      [link_record "https://www.ex.com/b" "www" "External";
       link_record "https://EX.com/c" "upper" "External";
       link_record "httpfoo/bar" "odd" "External"]
  ∧ Forall (bucket_record "Internal")
      [link_record "https://ex.com/a" "same" "Internal"].
Proof.
  assert (links_loop "https://ex.com/page"
            (find_all_with "a" "href" some_links) [] []
          = Return
              ([link_record "https://www.ex.com/b" "www" "External";
                link_record "https://EX.com/c" "upper" "External";
                link_record "httpfoo/bar" "odd" "External"],
               [link_record "https://ex.com/a" "same" "Internal"])) as Hloop
    by reflexivity.
  split; [exact Hloop|].
  destruct (links_loop_appends_records _ _ _ _ _ _ Hloop)
    as (ne & ni & He & Hi & Hne & Hni & _).
  simpl in He, Hi. subst ne ni. by split.
Defined.

Lemma links_all_relative_reports_zero_witness :
  find_all_with "a" "href" relative_links ≠ []
  ∧ writes (links_branch "https://ex.com/page" relative_links) (Return tt)
      [Render Container
         (Markdown "Found 0 external links and 0 internal links" false);
       Render (Tab "External Links") (Info "No external links found");
       Render (Tab "Internal Links") (Info "No internal links found")].
Proof.
  assert (find_all_with "a" "href" relative_links ≠ []) as Hne
    by (by vm_compute).
  split; [exact Hne|].
  apply (links_all_relative_reports_zero "https://ex.com/page" relative_links Hne).
  apply Forall_forall. intros link Hin.
  apply list_elem_of_filter in Hin as [_ Hin].
  repeat (apply elem_of_cons in Hin as [-> | Hin]);
    [..| by apply elem_of_nil in Hin]; vm_compute; by intros [].
Defined.

Lemma links_unparsable_href_draws_nothing_witness :
  urlparse "http://[" = None
  ∧ writes (links_branch "https://ex.com/page" bad_link) (Raise ValueError) [].
Proof.
  split; [by vm_compute|].
  apply (links_unparsable_href_draws_nothing "https://ex.com/page" bad_link).
  change (find_all_with "a" "href" bad_link)
    with [mkTag "a" {[ "href" := "http://[" ]} [NavigableString "broken"]].
  apply Exists_cons_hd. split; by vm_compute.
Defined.

Lemma fetched_text_is_extracted_witness :
  passes_validation "https://ex.com/page"
  ∧ ∃ o out,
      writes (extract Headings "https://ex.com/page" page_html) o out
      ∧ writes (scrape Headings "https://ex.com/page") o
          (Render Main (Spinner "Fetching data from https://ex.com/page...")
             :: Request "https://ex.com/page" :: out).
Proof.
  assert (passes_validation "https://ex.com/page") as Hpass.
  { split; [done|]. exists (mkParseResult "https" "ex.com"). by vm_compute. }
  split; [exact Hpass|].
  apply (fetched_text_is_extracted Headings "https://ex.com/page"
           (ok_response "https://ex.com/page" page_html) Hpass).
  - by vm_compute.
  - left. simpl. lia.
Defined.

Lemma one_request_when_pressed_and_valid_witness :
  passes_validation "https://ex.com/page"
  ∧ page_requests (app Tables "https://ex.com/page" true).2
    = ["https://ex.com/page"].
Proof.
  assert (passes_validation "https://ex.com/page") as Hpass.
  { split; [done|]. exists (mkParseResult "https" "ex.com"). by vm_compute. }
  split; [exact Hpass|].
  by apply (one_request_when_pressed_and_valid Tables "https://ex.com/page" true).
Defined.

Lemma footer_drawn_iff_run_returns_witness :
  ¬ passes_validation "notaurl"
  ∧ (app Images "notaurl" true).1 = Raise StopException.
Proof.
  assert (¬ passes_validation "notaurl") as Hno.
  { intros (_ & r & Hr & Hs & _). vm_compute in Hr. injection Hr as <-.
    by apply Hs. }
  split; [exact Hno|].
  destruct (footer_drawn_iff_run_returns Images "notaurl" true)
    as (_ & _ & Hstop).
  apply Hstop; [done | done | by left].
Defined.
